(** * Polly-API client: a shallow embedding of the five request functions

    The repository consists of five Python functions, one per file:
    [register_user], [create_poll], [fetch_polls], [vote_on_poll] and
    [get_poll_results].  Each builds a URL, issues one blocking HTTP request
    through the [requests] library, inspects the status code of the reply and
    returns the parsed JSON body, returns [None], or raises.

    The embedding keeps what a caller can observe of one call:
    - the value returned or the exception raised,
    - the trace of side effects, in order: the request handed to the
      transport and the records written to the module logger.

    The [requests] library is not part of the repository.  It is modelled by
    the attributes of [requests.Response] the code reads ([status_code],
    [content], [text], [json()], [raise_for_status()]) and by a transport
    function from requests to replies. *)

From Stdlib Require Import ZArith List String Ascii Bool Lia QArith.
From Stdlib Require Import DecimalString.
Import ListNotations.

Local Open Scope string_scope.
Set Warnings "-register-all".
Local Open Scope Z_scope.

(** ** Python values

    The values the five functions handle: what [json.loads] produces, which
    are also the values a caller may pass as arguments.  A [dict] keeps its
    insertion order, so it is an association list. Non-finite floats are not
    represented. *)

Inductive value : Type :=
| VNone
| VBool (b : bool)
| VInt (z : Z)
| VFloat (q : Q)
| VStr (s : string)
| VList (l : list value)
| VDict (d : list (string * value)).

(** ** Exceptions

    [ValueError] is raised by the functions' own [raise] statements; its
    message is an f-string, kept as the list of its literal and interpolated
    pieces.  [RequestException] with a prefix and a cause is the wrapper
    [RequestException(f"<prefix>{e}")] built in the [except] clauses.  The
    other constructors are raised by the runtime or by [requests]. *)

Inductive piece_of (E : Type) : Type :=
| Lit (s : string)            (* literal text of the f-string *)
| Fmt (v : value)             (* {expr} *)
| FmtType (v : value)         (* {type(expr)} *)
| FmtExn (e : E).             (* {e} for a caught exception *)

Arguments Lit {E} s.
Arguments Fmt {E} v.
Arguments FmtType {E} v.
Arguments FmtExn {E} e.

Inductive transport_error : Type :=
| ConnectionError
| Timeout
| OtherRequestError.

Inductive exn : Type :=
| ValueError (msg : list (piece_of exn))
| RequestException (prefix : string) (cause : exn)
| HTTPError (status : Z)
| JSONDecodeError
| Transport (t : transport_error)
| AttributeError
| TypeError
| KeyError (key : string).

Definition piece := piece_of exn.
Definition fstring := list piece.

(** [isinstance(e, requests.exceptions.RequestException)].  In [requests]
    the decode error of [Response.json()] derives from both
    [RequestException] (through [InvalidJSONError]) and [ValueError]
    (through [json.JSONDecodeError]). *)
Definition is_RequestException (e : exn) : bool :=
  match e with
  | RequestException _ _ | HTTPError _ | JSONDecodeError | Transport _ => true
  | ValueError _ | AttributeError | TypeError | KeyError _ => false
  end.

(** [isinstance(e, ValueError)] *)
Definition is_ValueError (e : exn) : bool :=
  match e with
  | ValueError _ | JSONDecodeError => true
  | _ => false
  end.

(** ** Requests and responses *)

Inductive http_method : Type := GET | POST.

Record Request : Type := mkRequest {
  req_method : http_method;
  req_url : string;
  req_params : list (string * value);
  req_json : option value;
  req_headers : list (string * string);
  req_timeout : option Z
}.

(** The attributes of [requests.Response] that the code reads.  [json] is
    the result of [response.json()]: the parsed body, or [None] when the
    call raises the decode error. *)
Record Response : Type := mkResponse {
  status_code : Z;
  content : list Byte.byte;
  text : string;
  json : option value
}.

(** ** Observable effects *)

Inductive level : Type := INFO | WARNING | ERROR.

Inductive event : Type :=
| Sent (r : Request)
| Log (l : level) (msg : fstring).

(** ** The effect monad: a trace of events, then a value or an exception *)

Definition M (A : Type) : Type := (list event * (A + exn))%type.

Definition ret {A} (a : A) : M A := ([], inl a).

Definition raise {A} (e : exn) : M A := ([], inr e).

Definition bind {A B} (m : M A) (k : A -> M B) : M B :=
  match m with
  | (t, inl a) => let '(t', r) := k a in ((t ++ t')%list, r)
  | (t, inr e) => (t, inr e)
  end.

(** [try: m  except <handles> as e: h e] *)
Definition try_except {A} (m : M A) (handles : exn -> bool) (h : exn -> M A) : M A :=
  match m with
  | (t, inr e) => if handles e then let '(t', r) := h e in ((t ++ t')%list, r) else (t, inr e)
  | ok => ok
  end.

Definition emit (ev : event) : M unit := ([ev], inl tt).

Definition logger_info (msg : fstring) : M unit := emit (Log INFO msg).
Definition logger_warning (msg : fstring) : M unit := emit (Log WARNING msg).
Definition logger_error (msg : fstring) : M unit := emit (Log ERROR msg).

Definition lift {A} (r : A + exn) : M A := ([], r).

Definition trace {A} (m : M A) : list event := fst m.
Definition result {A} (m : M A) : A + exn := snd m.

Declare Scope py_scope.
Delimit Scope py_scope with py.
Notation "x <- m ;; k" := (bind m (fun x => k))
  (at level 61, m at next level, right associativity) : py_scope.
Notation "m ;; k" := (bind m (fun _ => k))
  (at level 61, right associativity) : py_scope.
Local Open Scope py_scope.

(** ** Built-in operations of the runtime *)

(** [s.rstrip('/')] for a one-character argument: drop the trailing
    occurrences of [c]. *)
Fixpoint rstrip (c : ascii) (s : string) : string :=
  match s with
  | EmptyString => EmptyString
  | String a s' =>
      match rstrip c s' with
      | EmptyString => if Ascii.eqb a c then EmptyString else String a EmptyString
      | r => String a r
      end
  end.

(** [str(n)] for an [int] *)
Definition str_int (z : Z) : string := NilZero.string_of_int (Z.to_int z).

(** [needle in haystack] for two [str] *)
Fixpoint is_substring (needle hay : string) : bool :=
  String.prefix needle hay ||
  match hay with
  | EmptyString => false
  | String _ hay' => is_substring needle hay'
  end.

Definition dict_has (key : string) (d : list (string * value)) : bool :=
  existsb (fun kv => String.eqb (fst kv) key) d.

Fixpoint dict_lookup (key : string) (d : list (string * value)) : option value :=
  match d with
  | [] => None
  | (k, v) :: d' => if String.eqb k key then Some v else dict_lookup key d'
  end.

(** [key in x] for a [str] key *)
Definition py_in (key : string) (x : value) : bool + exn :=
  match x with
  | VDict d => inl (dict_has key d)
  | VList l =>
      inl (existsb (fun v => match v with VStr s => String.eqb s key | _ => false end) l)
  | VStr s => inl (is_substring key s)
  | VNone | VBool _ | VInt _ | VFloat _ => inr TypeError
  end.

(** [all(key in x for key in keys)]: stops at the first key that is absent *)
Fixpoint py_all_in (keys : list string) (x : value) : bool + exn :=
  match keys with
  | [] => inl true
  | k :: ks =>
      match py_in k x with
      | inl true => py_all_in ks x
      | inl false => inl false
      | inr e => inr e
      end
  end.

(** [[field for field in keys if field not in x]] *)
Fixpoint py_missing (keys : list string) (x : value) : list string + exn :=
  match keys with
  | [] => inl []
  | k :: ks =>
      match py_in k x with
      | inl b =>
          match py_missing ks x with
          | inl m => inl (if b then m else k :: m)
          | inr e => inr e
          end
      | inr e => inr e
      end
  end.

(** [x.get(key, default)]: only a [dict] has the method *)
Definition py_get (x : value) (key : string) (default : value) : value + exn :=
  match x with
  | VDict d => inl (match dict_lookup key d with Some v => v | None => default end)
  | _ => inr AttributeError
  end.

(** [x[key]] for a [str] key *)
Definition py_getitem (x : value) (key : string) : value + exn :=
  match x with
  | VDict d => match dict_lookup key d with Some v => inl v | None => inr (KeyError key) end
  | _ => inr TypeError
  end.

(** [len(x)] *)
Definition py_len (x : value) : Z + exn :=
  match x with
  | VStr s => inl (Z.of_nat (String.length s))
  | VList l => inl (Z.of_nat (List.length l))
  | VDict d => inl (Z.of_nat (List.length d))
  | VNone | VBool _ | VInt _ | VFloat _ => inr TypeError
  end.

Definition isinstance_list (x : value) : bool :=
  match x with VList _ => true | _ => false end.

Definition isinstance_dict (x : value) : bool :=
  match x with VDict _ => true | _ => false end.

Definition isinstance_str (x : value) : bool :=
  match x with VStr _ => true | _ => false end.

(** [isinstance(x, int)]: [bool] is a subclass of [int] *)
Definition isinstance_int (x : value) : bool :=
  match x with VInt _ | VBool _ => true | _ => false end.

(** [x <= 0] for an [int] (a [bool] counts as 0 or 1) *)
Definition int_le_zero (x : value) : bool :=
  match x with
  | VInt z => z <=? 0
  | VBool b => negb b
  | _ => false
  end.

(** Truth value of [x] in a condition *)
Definition truthy (x : value) : bool :=
  match x with
  | VNone => false
  | VBool b => b
  | VInt z => negb (z =? 0)
  | VFloat q => negb (Qeq_bool q 0)
  | VStr s => negb (String.eqb s "")
  | VList l => match l with [] => false | _ => true end
  | VDict d => match d with [] => false | _ => true end
  end.

(** [str(x)] of the arguments that reach URL construction: a [str], or an
    [int] ([bool] included).  Other values are turned away before. *)
Definition str_arg (x : value) : string :=
  match x with
  | VStr s => s
  | VInt z => str_int z
  | VBool true => "True"
  | VBool false => "False"
  | _ => ""
  end.

(** ** Methods of [requests.Response] *)

(** [response.json()] *)
Definition response_json (r : Response) : M value :=
  lift (match json r with Some v => inl v | None => inr JSONDecodeError end).

(** [response.raise_for_status()]: raises [HTTPError] for the client and
    server error ranges, and returns otherwise. *)
Definition raise_for_status (r : Response) : M unit :=
  if (400 <=? status_code r) && (status_code r <? 600)
  then raise (HTTPError (status_code r))
  else ret tt.

(** Truth value of [response.content] (a [bytes] object) *)
Definition has_content (r : Response) : bool :=
  match content r with [] => false | _ => true end.

(** ** URL construction, one definition per source file *)

Definition register_user_url (base_url : string) : string :=
  rstrip "/" base_url ++ "/register".

Definition create_poll_url (base_url : string) : string :=
  rstrip "/" base_url ++ "/polls".

Definition fetch_polls_url (base_url : string) : string :=
  rstrip "/" base_url ++ "/polls".

Definition vote_on_poll_url (base_url : string) (poll_id : Z) : string :=
  rstrip "/" base_url ++ "/polls/" ++ str_int poll_id ++ "/vote".

Definition get_poll_results_url (base_url : string) (poll_id : value) : string :=
  rstrip "/" base_url ++ "/polls/" ++ str_arg poll_id.

(** ** The five operations

    Arguments have the types of the source's annotations, except for
    [base_url] and [poll_id] of [get_poll_results], which the function
    checks itself and which are therefore arbitrary values.  Every branch
    of a function body ends in [ret] (a [return]), in [raise], or, where the
    source runs off the end of the function, in [ret VNone]. *)

Section Operations.

(** The transport: [requests.get] / [requests.post] either hand back a
    response or raise one of the library's transport exceptions, all of
    them [RequestException]s.  Exceptions of other classes that the call
    itself can raise while it prepares the request (for a URL or a header
    value it cannot encode) are not modelled: statements about what a call
    can end with are made for a given reply or a given transport error. *)
Variable net : Request -> Response + transport_error.

Definition send (req : Request) : M Response :=
  emit (Sent req) ;;
  lift (match net req with inl r => inl r | inr t => inr (Transport t) end).

(** *** register_user.py *)

Definition register_user (base_url username password : string) : M value :=
  let url := register_user_url base_url in
  let payload := VDict [("username", VStr username); ("password", VStr password)] in
  let headers := [("Content-Type", "application/json")] in
  try_except
    (response <- send (mkRequest POST url [] (Some payload) headers None) ;;
     logger_info [Lit "POST "; Fmt (VStr url); Lit " - Status: ";
                  Fmt (VInt (status_code response))] ;;
     if status_code response =? 200 then
       user_data <- response_json response ;;
       name <- lift (py_get user_data "username" (VStr "Unknown")) ;;
       uid <- lift (py_get user_data "id" (VStr "Unknown")) ;;
       logger_info [Lit "User registered successfully: "; Fmt name;
                    Lit " (ID: "; Fmt uid; Lit ")"] ;;
       ret user_data
     else if status_code response =? 400 then
       let error_detail := VStr (text response) in
       logger_error [Lit "Registration failed - Username already exists: ";
                     Fmt error_detail] ;;
       raise (ValueError [Lit "Username already registered: "; Fmt error_detail])
     else if status_code response =? 422 then
       error_detail <- (if has_content response then response_json response
                        else ret (VStr "Validation error")) ;;
       logger_error [Lit "Registration failed - Validation error: "; Fmt error_detail] ;;
       raise (ValueError [Lit "Invalid input data: "; Fmt error_detail])
     else
       let error_detail := VStr (text response) in
       logger_error [Lit "Unexpected response code "; Fmt (VInt (status_code response));
                     Lit ": "; Fmt error_detail] ;;
       raise_for_status response ;;
       ret VNone (* end of the function: no [return] *))
    is_RequestException
    (fun e =>
       logger_error [Lit "Network error during registration: "; FmtExn e] ;;
       raise (RequestException "Failed to register user: " e)).

(** *** create_poll.py *)

Definition create_poll_required_fields : list string :=
  ["id"; "question"; "created_at"; "owner_id"; "options"].

Definition create_poll (base_url question : string) (options : list string)
    (access_token : string) : M value :=
  let url := create_poll_url base_url in
  let payload := VDict [("question", VStr question);
                        ("options", VList (map VStr options))] in
  let headers := [("Content-Type", "application/json");
                  ("Authorization", "Bearer " ++ access_token)] in
  try_except
    (response <- send (mkRequest POST url [] (Some payload) headers None) ;;
     logger_info [Lit "POST "; Fmt (VStr url); Lit " - Status: ";
                  Fmt (VInt (status_code response)); Lit " - Question: '";
                  Fmt (VStr question); Lit "' - Options: ";
                  Fmt (VInt (Z.of_nat (List.length options)))] ;;
     if status_code response =? 200 then
       poll_data <- response_json response ;;
       pid <- lift (py_get poll_data "id" (VStr "Unknown")) ;;
       q <- lift (py_get poll_data "question" (VStr "Unknown")) ;;
       logger_info [Lit "Poll created successfully: ID "; Fmt pid; Lit " - '";
                    Fmt q; Lit "'"] ;;
       let required_fields := create_poll_required_fields in
       complete <- lift (py_all_in required_fields poll_data) ;;
       if complete : bool then
         opts <- lift (py_get poll_data "options" (VList [])) ;;
         n <- lift (py_len opts) ;;
         logger_info [Lit "Poll has "; Fmt (VInt n); Lit " options"] ;;
         ret poll_data
       else
         missing_fields <- lift (py_missing required_fields poll_data) ;;
         logger_warning [Lit "Created poll missing required fields: ";
                         Fmt (VList (map VStr missing_fields))] ;;
         ret poll_data
     else if status_code response =? 401 then
       let error_detail := VStr (text response) in
       logger_error [Lit "Authentication failed: "; Fmt error_detail] ;;
       raise (ValueError [Lit "Unauthorized - Invalid or expired token: ";
                          Fmt error_detail])
     else if status_code response =? 422 then
       error_detail <- (if has_content response then response_json response
                        else ret (VStr "Validation error")) ;;
       logger_error [Lit "Poll creation failed - Validation error: "; Fmt error_detail] ;;
       raise (ValueError [Lit "Invalid poll data: "; Fmt error_detail])
     else
       let error_detail := VStr (text response) in
       logger_error [Lit "Unexpected response code "; Fmt (VInt (status_code response));
                     Lit ": "; Fmt error_detail] ;;
       raise_for_status response ;;
       ret VNone)
    is_RequestException
    (fun e =>
       logger_error [Lit "Network error during poll creation: "; FmtExn e] ;;
       raise (RequestException "Failed to create poll: " e)).

(** *** fetch_polls.py *)

Definition fetch_polls_required_fields : list string :=
  ["id"; "question"; "created_at"; "owner_id"; "options"].

(** The [for poll in polls_data] loop: one warning per incomplete item *)
Fixpoint fetch_polls_check (polls : list value) : M unit :=
  match polls with
  | [] => ret tt
  | poll :: rest =>
      complete <- lift (py_all_in fetch_polls_required_fields poll) ;;
      (if complete : bool then ret tt
       else
         pid <- lift (py_get poll "id" (VStr "Unknown")) ;;
         logger_warning [Lit "Poll "; Fmt pid; Lit " missing required fields"]) ;;
      fetch_polls_check rest
  end.

Definition fetch_polls (base_url : string) (skip limit : Z) : M value :=
  let url := fetch_polls_url base_url in
  let params := [("skip", VInt skip); ("limit", VInt limit)] in
  try_except
    (response <- send (mkRequest GET url params None [] None) ;;
     logger_info [Lit "GET "; Fmt (VStr url); Lit " - Status: ";
                  Fmt (VInt (status_code response)); Lit " - Params: skip=";
                  Fmt (VInt skip); Lit ", limit="; Fmt (VInt limit)] ;;
     if status_code response =? 200 then
       polls_data <- response_json response ;;
       n <- lift (py_len polls_data) ;;
       logger_info [Lit "Successfully fetched "; Fmt (VInt n); Lit " polls"] ;;
       match polls_data with
       | VList polls =>
           fetch_polls_check polls ;;
           ret polls_data
       | _ =>
           logger_error [Lit "Unexpected response format: expected list, got ";
                         FmtType polls_data] ;;
           raise (ValueError [Lit "Invalid response format: expected list of polls"])
       end
     else if status_code response =? 422 then
       error_detail <- (if has_content response then response_json response
                        else ret (VStr "Validation error")) ;;
       logger_error [Lit "Invalid query parameters: "; Fmt error_detail] ;;
       raise (ValueError [Lit "Invalid pagination parameters: "; Fmt error_detail])
     else
       let error_detail := VStr (text response) in
       logger_error [Lit "Unexpected response code "; Fmt (VInt (status_code response));
                     Lit ": "; Fmt error_detail] ;;
       raise_for_status response ;;
       ret VNone)
    is_RequestException
    (fun e =>
       logger_error [Lit "Network error while fetching polls: "; FmtExn e] ;;
       raise (RequestException "Failed to fetch polls: " e)).

(** *** vote_on_poll.py *)

Definition vote_on_poll_required_fields : list string :=
  ["id"; "user_id"; "option_id"; "created_at"].

Definition vote_on_poll (base_url : string) (poll_id option_id : Z)
    (access_token : string) : M value :=
  let url := vote_on_poll_url base_url poll_id in
  let payload := VDict [("option_id", VInt option_id)] in
  let headers := [("Content-Type", "application/json");
                  ("Authorization", "Bearer " ++ access_token)] in
  try_except
    (response <- send (mkRequest POST url [] (Some payload) headers None) ;;
     logger_info [Lit "POST "; Fmt (VStr url); Lit " - Status: ";
                  Fmt (VInt (status_code response)); Lit " - Poll ID: ";
                  Fmt (VInt poll_id); Lit ", Option ID: "; Fmt (VInt option_id)] ;;
     if status_code response =? 200 then
       vote_data <- response_json response ;;
       vid <- lift (py_get vote_data "id" (VStr "Unknown")) ;;
       uid <- lift (py_get vote_data "user_id" (VStr "Unknown")) ;;
       oid <- lift (py_get vote_data "option_id" (VStr "Unknown")) ;;
       logger_info [Lit "Vote cast successfully: Vote ID "; Fmt vid; Lit " - User ";
                    Fmt uid; Lit " voted for option "; Fmt oid] ;;
       let required_fields := vote_on_poll_required_fields in
       complete <- lift (py_all_in required_fields vote_data) ;;
       if complete : bool then
         ret vote_data
       else
         missing_fields <- lift (py_missing required_fields vote_data) ;;
         logger_warning [Lit "Vote response missing required fields: ";
                         Fmt (VList (map VStr missing_fields))] ;;
         ret vote_data
     else if status_code response =? 401 then
       let error_detail := VStr (text response) in
       logger_error [Lit "Authentication failed: "; Fmt error_detail] ;;
       raise (ValueError [Lit "Unauthorized - Invalid or expired token: ";
                          Fmt error_detail])
     else if status_code response =? 404 then
       let error_detail := VStr (text response) in
       logger_error [Lit "Poll or option not found: "; Fmt error_detail] ;;
       raise (ValueError [Lit "Poll ID "; Fmt (VInt poll_id); Lit " or option ID ";
                          Fmt (VInt option_id); Lit " not found: "; Fmt error_detail])
     else if status_code response =? 422 then
       error_detail <- (if has_content response then response_json response
                        else ret (VStr "Validation error")) ;;
       logger_error [Lit "Vote failed - Validation error: "; Fmt error_detail] ;;
       raise (ValueError [Lit "Invalid vote data: "; Fmt error_detail])
     else
       let error_detail := VStr (text response) in
       logger_error [Lit "Unexpected response code "; Fmt (VInt (status_code response));
                     Lit ": "; Fmt error_detail] ;;
       raise_for_status response ;;
       ret VNone)
    is_RequestException
    (fun e =>
       logger_error [Lit "Network error during voting: "; FmtExn e] ;;
       raise (RequestException "Failed to cast vote: " e)).

(** *** get_poll_results.py *)

Definition get_poll_results_required_fields : list string :=
  ["id"; "question"; "options"; "created_at"; "user_id"].

(** The test of the [for option in poll_data['options']] loop:
    [not isinstance(option, dict) or 'id' not in option or 'text' not in option] *)
Definition option_is_invalid (option : value) : bool + exn :=
  if negb (isinstance_dict option) then inl true
  else
    match py_in "id" option with
    | inl false => inl true
    | inl true =>
        match py_in "text" option with
        | inl b => inl (negb b)
        | inr e => inr e
        end
    | inr e => inr e
    end.

(** The loop itself: [true] when it reaches its end, [false] when it leaves
    the function at an invalid option. *)
Fixpoint options_all_valid (options : list value) : bool + exn :=
  match options with
  | [] => inl true
  | option :: rest =>
      match option_is_invalid option with
      | inl true => inl false
      | inl false => options_all_valid rest
      | inr e => inr e
      end
  end.

(** [access_token] is [None], or a [str] that counts as absent when empty
    ([if access_token:]). *)
Definition get_poll_results (base_url poll_id : value) (access_token : option string)
    : M value :=
  if negb (isinstance_int poll_id) || int_le_zero poll_id then
    logger_error [Lit "Invalid poll_id: "; Fmt poll_id;
                  Lit ". Must be a positive integer."] ;;
    ret VNone
  else if negb (truthy base_url) || negb (isinstance_str base_url) then
    logger_error [Lit "Invalid base_url: "; Fmt base_url;
                  Lit ". Must be a non-empty string."] ;;
    ret VNone
  else
    let url := get_poll_results_url (str_arg base_url) poll_id in
    let headers := [("Content-Type", "application/json");
                    ("Accept", "application/json")] in
    let headers :=
      match access_token with
      | Some token =>
          if negb (String.eqb token "")
          then List.app headers [("Authorization", "Bearer " ++ token)]
          else headers
      | None => headers
      end in
    logger_info [Lit "Retrieving poll results for poll_id: "; Fmt poll_id] ;;
    try_except
      (response <- send (mkRequest GET url [] None headers (Some 30)) ;;
       logger_info [Lit "Request URL: "; Fmt (VStr url)] ;;
       logger_info [Lit "Response status code: "; Fmt (VInt (status_code response))] ;;
       if status_code response =? 200 then
         try_except
           (poll_data <- response_json response ;;
            let required_fields := get_poll_results_required_fields in
            complete <- lift (py_all_in required_fields poll_data) ;;
            if negb complete then
              logger_error [Lit "Invalid response structure. Missing required fields."] ;;
              ret VNone
            else
              options <- lift (py_getitem poll_data "options") ;;
              match options with
              | VList opts =>
                  valid <- lift (options_all_valid opts) ;;
                  if negb valid then
                    logger_error [Lit "Invalid option structure in response"] ;;
                    ret VNone
                  else
                    logger_info [Lit "Successfully retrieved poll results for poll_id: ";
                                 Fmt poll_id] ;;
                    question <- lift (py_getitem poll_data "question") ;;
                    logger_info [Lit "Poll question: "; Fmt question] ;;
                    options' <- lift (py_getitem poll_data "options") ;;
                    n <- lift (py_len options') ;;
                    logger_info [Lit "Number of options: "; Fmt (VInt n)] ;;
                    ret poll_data
              | _ =>
                  logger_error [Lit "Invalid options format in response"] ;;
                  ret VNone
              end)
           is_ValueError
           (fun e =>
              logger_error [Lit "Failed to parse JSON response: "; FmtExn e] ;;
              ret VNone)
       else if status_code response =? 401 then
         logger_error [Lit "Authentication failed. Invalid or expired access token."] ;;
         ret VNone
       else if status_code response =? 404 then
         logger_error [Lit "Poll with ID "; Fmt poll_id; Lit " not found."] ;;
         ret VNone
       else if status_code response =? 422 then
         logger_error [Lit "Validation error: "; Fmt (VStr (text response))] ;;
         ret VNone
       else
         logger_error [Lit "Unexpected response code "; Fmt (VInt (status_code response));
                       Lit ": "; Fmt (VStr (text response))] ;;
         ret VNone)
      is_RequestException
      (fun e =>
         match e with
         | Transport ConnectionError =>
             logger_error [Lit "Failed to connect to the API at "; Fmt base_url] ;;
             ret VNone
         | Transport Timeout =>
             logger_error [Lit "Request timed out"] ;;
             ret VNone
         | _ =>
             logger_error [Lit "Request failed: "; FmtExn e] ;;
             ret VNone
         end).

End Operations.

(** ** Replies and outcomes *)

(** A transport that answers every request with the response [r] *)
Definition answering (r : Response) : Request -> Response + transport_error :=
  fun _ => inl r.

(** A transport that fails every request with the transport error [t] *)
Definition failing (t : transport_error) : Request -> Response + transport_error :=
  fun _ => inr t.

(** The outcome of one call as the specification names it: a success value,
    or a failure.  The four raising operations report a failure by an
    exception of their own making, which is the detail of the failure;
    [get_poll_results] reports every failure by the bare [None]. *)
Inductive ApiOutcome : Type :=
| Success (v : value)
| Failure (detail : option exn).

(** The exceptions the functions build themselves: the [ValueError] of a
    status branch and the [RequestException] of the [except] clause. *)
Definition is_raised_failure (e : exn) : bool :=
  match e with
  | ValueError _ | RequestException _ _ => true
  | _ => false
  end.

(** Reading of a result of [register_user], [create_poll], [fetch_polls] or
    [vote_on_poll].  Falling off the end of the function ([None]) and an
    exception of the runtime that passes through are no outcome. *)
Definition outcome_raising (r : value + exn) : option ApiOutcome :=
  match r with
  | inl VNone => None
  | inl v => Some (Success v)
  | inr e => if is_raised_failure e then Some (Failure (Some e)) else None
  end.

(** Reading of a result of [get_poll_results], whose documented failure
    value is [None].  No exception is an outcome. *)
Definition outcome_optional (r : value + exn) : option ApiOutcome :=
  match r with
  | inl VNone => Some (Failure None)
  | inl v => Some (Success v)
  | inr _ => None
  end.

(** [n] copies of ["/"] *)
Fixpoint slashes (n : nat) : string :=
  match n with
  | O => ""
  | S n' => String "/" (slashes n')
  end.

(** [s.endswith('/')] *)
Fixpoint ends_with_slash (s : string) : bool :=
  match s with
  | EmptyString => false
  | String a EmptyString => Ascii.eqb a "/"
  | String _ s' => ends_with_slash s'
  end.

(** The URLs of the requests recorded in a trace *)
Fixpoint sent_urls (t : list event) : list string :=
  match t with
  | [] => []
  | Sent r :: t' => req_url r :: sent_urls t'
  | Log _ _ :: t' => sent_urls t'
  end.

(** ** One type for the five calls

    A call is an operation together with its arguments, so that a property
    of every operation can be stated once. *)

Inductive call : Type :=
| RegisterUser (base_url username password : string)
| CreatePoll (base_url question : string) (options : list string) (access_token : string)
| FetchPolls (base_url : string) (skip limit : Z)
| VoteOnPoll (base_url : string) (poll_id option_id : Z) (access_token : string)
| GetPollResults (base_url poll_id : value) (access_token : option string).

Definition perform (net : Request -> Response + transport_error) (c : call) : M value :=
  match c with
  | RegisterUser b u p => register_user net b u p
  | CreatePoll b q o t => create_poll net b q o t
  | FetchPolls b s l => fetch_polls net b s l
  | VoteOnPoll b p o t => vote_on_poll net b p o t
  | GetPollResults b p t => get_poll_results net b p t
  end.

(** Whether the operation reports failures by raising; [get_poll_results]
    returns [None] instead. *)
Definition raises_on_failure (c : call) : bool :=
  match c with
  | GetPollResults _ _ _ => false
  | _ => true
  end.

Definition outcome (c : call) (r : value + exn) : option ApiOutcome :=
  if raises_on_failure c then outcome_raising r else outcome_optional r.

(** The two argument checks at the head of [get_poll_results]; the other
    operations check nothing before the request. *)
Definition arguments_accepted (c : call) : bool :=
  match c with
  | GetPollResults base_url poll_id _ =>
      negb (negb (isinstance_int poll_id) || int_le_zero poll_id)
      && negb (negb (truthy base_url) || negb (isinstance_str base_url))
  | _ => true
  end.

(** The status codes an operation tests with [==] before its [else] *)
Definition enumerated_statuses (c : call) : list Z :=
  match c with
  | RegisterUser _ _ _ => [200; 400; 422]
  | CreatePoll _ _ _ _ => [200; 401; 422]
  | FetchPolls _ _ _ => [200; 422]
  | VoteOnPoll _ _ _ _ => [200; 401; 404; 422]
  | GetPollResults _ _ _ => [200; 401; 404; 422]
  end.

(** The URL an operation hands to the transport for a textual base URL *)
Definition request_url (c : call) : string :=
  match c with
  | RegisterUser b _ _ => register_user_url b
  | CreatePoll b _ _ _ => create_poll_url b
  | FetchPolls b _ _ => fetch_polls_url b
  | VoteOnPoll b p _ _ => vote_on_poll_url b p
  | GetPollResults b p _ => get_poll_results_url (str_arg b) p
  end.

(** The same call with another base URL *)
Definition with_base_url (c : call) (b : string) : call :=
  match c with
  | RegisterUser _ u p => RegisterUser b u p
  | CreatePoll _ q o t => CreatePoll b q o t
  | FetchPolls _ s l => FetchPolls b s l
  | VoteOnPoll _ p o t => VoteOnPoll b p o t
  | GetPollResults _ p t => GetPollResults (VStr b) p t
  end.

(** The literal with which the [except] clause of a raising operation
    starts the message of its [RequestException] *)
Definition wrapper_prefix (c : call) : string :=
  match c with
  | RegisterUser _ _ _ => "Failed to register user: "
  | CreatePoll _ _ _ _ => "Failed to create poll: "
  | FetchPolls _ _ _ => "Failed to fetch polls: "
  | VoteOnPoll _ _ _ _ => "Failed to cast vote: "
  | GetPollResults _ _ _ => ""
  end.

(** The literal with which the 422 branch of a raising operation starts the
    message of its [ValueError] *)
Definition validation_prefix (c : call) : string :=
  match c with
  | RegisterUser _ _ _ => "Invalid input data: "
  | CreatePoll _ _ _ _ => "Invalid poll data: "
  | FetchPolls _ _ _ => "Invalid pagination parameters: "
  | VoteOnPoll _ _ _ _ => "Invalid vote data: "
  | GetPollResults _ _ _ => ""
  end.

(** The JSON values that are neither a string, an array nor an object:
    [null], [true], [false] and the numbers *)
Definition is_json_scalar (v : value) : bool :=
  match v with
  | VNone | VBool _ | VInt _ | VFloat _ => true
  | VStr _ | VList _ | VDict _ => false
  end.

(** Fields of an object body: whether all of [fields] are keys of [d], and
    which of them are not *)
Definition has_all_fields (fields : list string) (d : list (string * value)) : bool :=
  forallb (fun k => dict_has k d) fields.

Definition missing_fields (fields : list string) (d : list (string * value)) : list string :=
  filter (fun k => negb (dict_has k d)) fields.

(** An item of [options] that passes the loop of [get_poll_results]: an
    object with the keys [id] and [text] *)
Definition option_well_formed (option : value) : bool :=
  match option with
  | VDict o => dict_has "id" o && dict_has "text" o
  | _ => false
  end.

(** The path an operation appends to the stripped base URL *)
Definition request_path (c : call) : string :=
  match c with
  | RegisterUser _ _ _ => "/register"
  | CreatePoll _ _ _ _ => "/polls"
  | FetchPolls _ _ _ => "/polls"
  | VoteOnPoll _ p _ _ => "/polls/" ++ str_int p ++ "/vote"
  | GetPollResults _ p _ => "/polls/" ++ str_arg p
  end.

(** Example replies and calls *)

Definition reply (status : Z) (body : string) (parsed : option value) : Response :=
  mkResponse status (list_byte_of_string body) body parsed.

(** The double quote, and a JSON string literal without escapes *)
Definition dq : string := String (ascii_of_nat 34) EmptyString.
Definition quoted (s : string) : string := dq ++ s ++ dq.

(** The poll of the specification's example scenario *)
Definition example_poll : list (string * value) :=
  [("id", VInt 1); ("question", VStr "Q");
   ("created_at", VStr "2024-01-01T00:00:00Z"); ("owner_id", VInt 5);
   ("options", VList [VDict [("id", VInt 1); ("text", VStr "A"); ("poll_id", VInt 1)]])].

Definition example_poll_text : string :=
  "{" ++ quoted "id" ++ ":1," ++ quoted "question" ++ ":" ++ quoted "Q" ++ ","
  ++ quoted "created_at" ++ ":" ++ quoted "2024-01-01T00:00:00Z" ++ ","
  ++ quoted "owner_id" ++ ":5," ++ quoted "options" ++ ":[{" ++ quoted "id" ++ ":1,"
  ++ quoted "text" ++ ":" ++ quoted "A" ++ "," ++ quoted "poll_id" ++ ":1}]}".

(** A vote record *)
Definition example_vote : list (string * value) :=
  [("id", VInt 7); ("user_id", VInt 5); ("option_id", VInt 2);
   ("created_at", VStr "2024-01-01T00:00:00Z")].

Definition example_vote_text : string :=
  "{" ++ quoted "id" ++ ":7," ++ quoted "user_id" ++ ":5," ++ quoted "option_id"
  ++ ":2," ++ quoted "created_at" ++ ":" ++ quoted "2024-01-01T00:00:00Z" ++ "}".

(** A poll with the five fields [get_poll_results] asks for *)
Definition example_results : list (string * value) :=
  [("id", VInt 1); ("question", VStr "Q");
   ("options", VList [VDict [("id", VInt 1); ("text", VStr "A")]]);
   ("created_at", VStr "2024-01-01T00:00:00Z"); ("user_id", VInt 5)].

Definition example_results_text : string :=
  "{" ++ quoted "id" ++ ":1," ++ quoted "question" ++ ":" ++ quoted "Q" ++ ","
  ++ quoted "options" ++ ":[{" ++ quoted "id" ++ ":1," ++ quoted "text" ++ ":"
  ++ quoted "A" ++ "}]," ++ quoted "created_at" ++ ":"
  ++ quoted "2024-01-01T00:00:00Z" ++ "," ++ quoted "user_id" ++ ":5}".

(** The same poll with [options] set to [null] *)
Definition example_results_null_options : list (string * value) :=
  [("id", VInt 1); ("question", VStr "Q"); ("options", VNone);
   ("created_at", VStr "2024-01-01T00:00:00Z"); ("user_id", VInt 5)].

Definition example_results_null_options_text : string :=
  "{" ++ quoted "id" ++ ":1," ++ quoted "question" ++ ":" ++ quoted "Q" ++ ","
  ++ quoted "options" ++ ":null," ++ quoted "created_at" ++ ":"
  ++ quoted "2024-01-01T00:00:00Z" ++ "," ++ quoted "user_id" ++ ":5}".

(** The example poll with [options] set to [null] *)
Definition example_poll_null_options : list (string * value) :=
  [("id", VInt 1); ("question", VStr "Q");
   ("created_at", VStr "2024-01-01T00:00:00Z"); ("owner_id", VInt 5);
   ("options", VNone)].

Definition example_poll_null_options_text : string :=
  "{" ++ quoted "id" ++ ":1," ++ quoted "question" ++ ":" ++ quoted "Q" ++ ","
  ++ quoted "created_at" ++ ":" ++ quoted "2024-01-01T00:00:00Z" ++ ","
  ++ quoted "owner_id" ++ ":5," ++ quoted "options" ++ ":null}".

Definition localhost : string := "http://localhost:8000".

(** ** The example blocks

    Each file ends with an [if __name__ == "__main__":] block that calls the
    function of the file with fixed arguments and prints what comes back.
    A block adds lines on standard output to the effects of the calls it
    makes, so its trace interleaves both. *)

Inductive io_event : Type :=
| Effect (e : event)
| Stdout (line : fstring).

Definition IO (A : Type) : Type := (list io_event * (A + exn))%type.

Definition io_ret {A} (a : A) : IO A := ([], inl a).

Definition io_bind {A B} (m : IO A) (k : A -> IO B) : IO B :=
  match m with
  | (t, inl a) => let '(t', r) := k a in ((t ++ t')%list, r)
  | (t, inr e) => (t, inr e)
  end.

(** [try: m] followed by [except] clauses, tried in order; a clause is the
    class test and the handler. *)
Fixpoint select_handler {A} (clauses : list ((exn -> bool) * (exn -> IO A))) (e : exn)
    : option (IO A) :=
  match clauses with
  | [] => None
  | (handles, h) :: rest => if handles e then Some (h e) else select_handler rest e
  end.

Definition io_try {A} (m : IO A) (clauses : list ((exn -> bool) * (exn -> IO A))) : IO A :=
  match m with
  | (t, inr e) =>
      match select_handler clauses e with
      | Some (t', r) => ((t ++ t')%list, r)
      | None => (t, inr e)
      end
  | ok => ok
  end.

(** [print(line)] *)
Definition print (line : fstring) : IO unit := ([Stdout line], inl tt).

(** A call of one of the five functions from a block *)
Definition call_function {A} (m : M A) : IO A := (map Effect (trace m), result m).

Definition io_lift {A} (r : A + exn) : IO A := ([], r).

Definition io_trace {A} (m : IO A) : list io_event := fst m.
Definition io_result {A} (m : IO A) : A + exn := snd m.

(** The lines printed, in order *)
Fixpoint stdout (t : list io_event) : list fstring :=
  match t with
  | [] => []
  | Stdout line :: t' => line :: stdout t'
  | Effect _ :: t' => stdout t'
  end.

Declare Scope io_scope.
Delimit Scope io_scope with io.
Notation "x <- m ;; k" := (io_bind m (fun x => k))
  (at level 61, m at next level, right associativity) : io_scope.
Notation "m ;; k" := (io_bind m (fun _ => k))
  (at level 61, right associativity) : io_scope.

(** [for x in v]: the items the loop visits *)
Fixpoint characters (s : string) : list value :=
  match s with
  | EmptyString => []
  | String a s' => VStr (String a EmptyString) :: characters s'
  end.

Definition py_iter (v : value) : list value + exn :=
  match v with
  | VList l => inl l
  | VStr s => inl (characters s)
  | VDict d => inl (map (fun kv => VStr (fst kv)) d)
  | VNone | VBool _ | VInt _ | VFloat _ => inr TypeError
  end.

Definition newline : string := String (ascii_of_nat 10) EmptyString.

Section Examples.

Variable net : Request -> Response + transport_error.

Local Open Scope io_scope.

(** *** register_user.py, lines 69-81 *)
Definition register_user_main : IO unit :=
  io_try
    (result <- call_function
                 (register_user net "http://localhost:8000" "john_doe"
                    "secure_password123") ;;
     print [Lit "User registered successfully: "; Fmt result])
    [(is_ValueError, fun e => print [Lit "Registration failed: "; FmtExn e]);
     (is_RequestException, fun e => print [Lit "Request error: "; FmtExn e])].

(** *** create_poll.py, lines 89-103 *)
Definition create_poll_main : IO unit :=
  io_try
    (poll <- call_function
               (create_poll net "http://localhost:8000"
                  "What's your favorite programming language?"
                  ["Python"; "JavaScript"; "Java"; "Go"] "your_jwt_token_here") ;;
     print [Lit "Poll created successfully: "; Fmt poll])
    [(is_ValueError, fun e => print [Lit "Poll creation failed: "; FmtExn e]);
     (is_RequestException, fun e => print [Lit "Request error: "; FmtExn e])].

(** *** fetch_polls.py, lines 77-102 *)
Fixpoint fetch_polls_main_loop (polls : list value) : IO unit :=
  match polls with
  | [] => io_ret tt
  | poll :: rest =>
      pid <- io_lift (py_getitem poll "id") ;;
      question <- io_lift (py_getitem poll "question") ;;
      print [Lit "- Poll "; Fmt pid; Lit ": "; Fmt question] ;;
      created <- io_lift (py_getitem poll "created_at") ;;
      print [Lit "  Created: "; Fmt created] ;;
      options <- io_lift (py_getitem poll "options") ;;
      n <- io_lift (py_len options) ;;
      print [Lit "  Options: "; Fmt (VInt n)] ;;
      print [] ;;
      fetch_polls_main_loop rest
  end.

Definition fetch_polls_main : IO unit :=
  io_try
    (polls <- call_function (fetch_polls net "http://localhost:8000" 0 10) ;;
     n <- io_lift (py_len polls) ;;
     print [Lit "Fetched "; Fmt (VInt n); Lit " polls:"] ;;
     items <- io_lift (py_iter polls) ;;
     fetch_polls_main_loop items ;;
     next_polls <- call_function (fetch_polls net "http://localhost:8000" 10 10) ;;
     m <- io_lift (py_len next_polls) ;;
     print [Lit "Next batch: "; Fmt (VInt m); Lit " polls"])
    [(is_RequestException, fun e => print [Lit "Error fetching polls: "; FmtExn e])].

(** *** vote_on_poll.py, lines 87-103 *)
Definition vote_on_poll_main : IO unit :=
  io_try
    (vote <- call_function
               (vote_on_poll net "http://localhost:8000" 1 2 "your_jwt_token_here") ;;
     print [Lit "Vote cast successfully: "; Fmt vote] ;;
     vid <- io_lift (py_getitem vote "id") ;;
     print [Lit "Vote ID: "; Fmt vid] ;;
     created <- io_lift (py_getitem vote "created_at") ;;
     print [Lit "Voted at: "; Fmt created])
    [(is_ValueError, fun e => print [Lit "Voting failed: "; FmtExn e]);
     (is_RequestException, fun e => print [Lit "Request error: "; FmtExn e])].

(** *** get_poll_results.py, lines 124-140 *)
Fixpoint get_poll_results_main_loop (options : list value) : IO unit :=
  match options with
  | [] => io_ret tt
  | option :: rest =>
      vote_count <- io_lift (py_get option "vote_count" (VInt 0)) ;;
      txt <- io_lift (py_getitem option "text") ;;
      print [Lit "  - "; Fmt txt; Lit ": "; Fmt vote_count; Lit " votes"] ;;
      get_poll_results_main_loop rest
  end.

Definition get_poll_results_main : IO unit :=
  poll_results <- call_function
                    (get_poll_results net (VStr "http://localhost:8000") (VInt 1) None) ;;
  if truthy poll_results then
    print [Lit (newline ++ "Poll Results:")] ;;
    question <- io_lift (py_getitem poll_results "question") ;;
    print [Lit "Question: "; Fmt question] ;;
    created <- io_lift (py_getitem poll_results "created_at") ;;
    print [Lit "Created: "; Fmt created] ;;
    print [Lit "Options:"] ;;
    options <- io_lift (py_getitem poll_results "options") ;;
    items <- io_lift (py_iter options) ;;
    get_poll_results_main_loop items
  else
    print [Lit "Failed to retrieve poll results"].

End Examples.

(** ** Reading a trace *)

Definition level_eqb (a b : level) : bool :=
  match a, b with
  | INFO, INFO | WARNING, WARNING | ERROR, ERROR => true
  | _, _ => false
  end.

(** The records written to the log at level [l], in order *)
Fixpoint log_records (l : level) (t : list event) : list fstring :=
  match t with
  | [] => []
  | Log l' msg :: t' =>
      if level_eqb l' l then msg :: log_records l t' else log_records l t'
  | Sent _ :: t' => log_records l t'
  end.

(** The requests handed to the transport, in order *)
Fixpoint sent_requests (t : list event) : list Request :=
  match t with
  | [] => []
  | Sent r :: t' => r :: sent_requests t'
  | Log _ _ :: t' => sent_requests t'
  end.

(** The value of the header [name], as [requests] would send it *)
Fixpoint header (name : string) (headers : list (string * string)) : option string :=
  match headers with
  | [] => None
  | (k, v) :: rest => if String.eqb k name then Some v else header name rest
  end.

(** What [get_poll_results] asks of its first two arguments, read off its
    two checks: a positive [int] (the [bool] [True] is one), and a non-empty
    [str]. *)
Definition valid_poll_id (poll_id : value) : Prop :=
  match poll_id with
  | VInt z => 0 < z
  | VBool b => b = true
  | _ => False
  end.

Definition valid_base_url (base_url : value) : Prop :=
  match base_url with
  | VStr s => s <> ""
  | _ => False
  end.

(** The [Authorization] header a call is meant to carry *)
Definition expected_authorization (c : call) : option string :=
  match c with
  | RegisterUser _ _ _ | FetchPolls _ _ _ => None
  | CreatePoll _ _ _ t | VoteOnPoll _ _ _ t => Some ("Bearer " ++ t)
  | GetPollResults _ _ (Some t) => if String.eqb t "" then None else Some ("Bearer " ++ t)
  | GetPollResults _ _ None => None
  end.

(** The label of the ERROR record an [except] clause of a raising operation
    writes before it raises *)
Definition network_error_label (c : call) : string :=
  match c with
  | RegisterUser _ _ _ => "Network error during registration: "
  | CreatePoll _ _ _ _ => "Network error during poll creation: "
  | FetchPolls _ _ _ => "Network error while fetching polls: "
  | VoteOnPoll _ _ _ _ => "Network error during voting: "
  | GetPollResults _ _ _ => ""
  end.

(** The warning [fetch_polls] writes for an incomplete item *)
Definition fetch_polls_warning (poll : list (string * value)) : fstring :=
  [Lit "Poll ";
   Fmt (match dict_lookup "id" poll with Some v => v | None => VStr "Unknown" end);
   Lit " missing required fields"].

(** The objects of an array that lack a field [fetch_polls] looks for *)
Fixpoint incomplete_polls (polls : list value) : list (list (string * value)) :=
  match polls with
  | [] => []
  | VDict d :: rest =>
      if has_all_fields fetch_polls_required_fields d
      then incomplete_polls rest
      else d :: incomplete_polls rest
  | _ :: rest => incomplete_polls rest
  end.

(** The values [len] accepts *)
Definition is_sized (v : value) : bool :=
  match v with
  | VStr _ | VList _ | VDict _ => true
  | VNone | VBool _ | VInt _ | VFloat _ => false
  end.

(** The levels of the records of a trace, in order *)
Fixpoint log_levels (t : list event) : list level :=
  match t with
  | [] => []
  | Log l _ :: t' => l :: log_levels t'
  | Sent _ :: t' => log_levels t'
  end.

(** The exceptions a raising operation can end with: its own [ValueError],
    its [RequestException] around an exception of [requests], and the
    runtime errors [AttributeError] and (where the function calls [len] or
    applies [in] to an item) [TypeError]. *)
Definition escapes_allowed (c : call) (e : exn) : Prop :=
  match e with
  | ValueError _ => True
  | RequestException prefix cause =>
      prefix = wrapper_prefix c
      /\ is_RequestException cause = true /\ is_raised_failure cause = false
  | AttributeError => True
  | TypeError =>
      match c with
      | CreatePoll _ _ _ _ | FetchPolls _ _ _ => True
      | _ => False
      end
  | HTTPError _ | JSONDecodeError | Transport _ | KeyError _ => False
  end.

(** * Properties *)

(** ** The effect monad *)

Lemma result_bind {A B} (m : M A) (k : A -> M B) :
  result (bind m k) = match result m with inl a => result (k a) | inr e => inr e end.
Proof.
  destruct m as [t [a | e]]; simpl; [destruct (k a) |]; reflexivity.
Qed.

Lemma trace_bind {A B} (m : M A) (k : A -> M B) :
  trace (bind m k)
  = (trace m ++ match result m with inl a => trace (k a) | inr _ => [] end)%list.
Proof.
  destruct m as [t [a | e]]; simpl; [destruct (k a) | rewrite app_nil_r]; reflexivity.
Qed.

Lemma result_try_except {A} (m : M A) handles h :
  result (try_except m handles h)
  = match result m with
    | inl a => inl a
    | inr e => if handles e then result (h e) else inr e
    end.
Proof.
  destruct m as [t [a | e]]; simpl; [reflexivity |].
  destruct (handles e); [destruct (h e) |]; reflexivity.
Qed.

Lemma trace_try_except {A} (m : M A) handles h :
  trace (try_except m handles h)
  = (trace m ++ match result m with
                | inl _ => []
                | inr e => if handles e then trace (h e) else []
                end)%list.
Proof.
  destruct m as [t [a | e]]; simpl; [now rewrite app_nil_r |].
  destruct (handles e); [destruct (h e) | rewrite app_nil_r]; reflexivity.
Qed.

(** ** The reply is all an operation sees of the transport *)

Lemma register_user_reply net base_url username password r :
  net (mkRequest POST (register_user_url base_url) []
         (Some (VDict [("username", VStr username); ("password", VStr password)]))
         [("Content-Type", "application/json")] None) = inl r ->
  register_user net base_url username password
  = register_user (answering r) base_url username password.
Proof.
  intros H. unfold register_user, send, answering. rewrite H. reflexivity.
Qed.

Lemma create_poll_reply net base_url question options access_token r :
  net (mkRequest POST (create_poll_url base_url) []
         (Some (VDict [("question", VStr question);
                       ("options", VList (map VStr options))]))
         [("Content-Type", "application/json");
          ("Authorization", "Bearer " ++ access_token)] None) = inl r ->
  create_poll net base_url question options access_token
  = create_poll (answering r) base_url question options access_token.
Proof.
  intros H. unfold create_poll, send, answering. rewrite H. reflexivity.
Qed.

Lemma fetch_polls_reply net base_url skip limit r :
  net (mkRequest GET (fetch_polls_url base_url)
         [("skip", VInt skip); ("limit", VInt limit)] None [] None) = inl r ->
  fetch_polls net base_url skip limit = fetch_polls (answering r) base_url skip limit.
Proof.
  intros H. unfold fetch_polls, send, answering. rewrite H. reflexivity.
Qed.

Lemma vote_on_poll_reply net base_url poll_id option_id access_token r :
  net (mkRequest POST (vote_on_poll_url base_url poll_id) []
         (Some (VDict [("option_id", VInt option_id)]))
         [("Content-Type", "application/json");
          ("Authorization", "Bearer " ++ access_token)] None) = inl r ->
  vote_on_poll net base_url poll_id option_id access_token
  = vote_on_poll (answering r) base_url poll_id option_id access_token.
Proof.
  intros H. unfold vote_on_poll, send, answering. rewrite H. reflexivity.
Qed.

Lemma get_poll_results_reply net base_url poll_id access_token r :
  (forall req, req_url req = get_poll_results_url (str_arg base_url) poll_id ->
               net req = inl r) ->
  get_poll_results net base_url poll_id access_token
  = get_poll_results (answering r) base_url poll_id access_token.
Proof.
  intros H. unfold get_poll_results, send, answering.
  destruct (negb (isinstance_int poll_id) || int_le_zero poll_id); [reflexivity |].
  destruct (negb (truthy base_url) || negb (isinstance_str base_url)); [reflexivity |].
  rewrite H by reflexivity. reflexivity.
Qed.

(** ** Status branches *)

(** C6: for the vote operation a reply with status 404 is reported as the
    not-found failure, the [ValueError] of the 404 branch, and the detail it
    carries is the text of the reply. The witness is the reply whose text is
    "Poll or option not found". *)
Theorem vote_404_not_found base_url poll_id option_id access_token r :
  status_code r = 404 ->
  outcome (VoteOnPoll base_url poll_id option_id access_token)
    (result (vote_on_poll (answering r) base_url poll_id option_id access_token))
  = Some (Failure (Some (ValueError
            [Lit "Poll ID "; Fmt (VInt poll_id); Lit " or option ID ";
             Fmt (VInt option_id); Lit " not found: "; Fmt (VStr (text r))]))).
Proof.
  destruct r as [st c tx j]. simpl. intros ->. reflexivity.
Qed.

Lemma vote_404_not_found_witness :
  status_code (reply 404 "Poll or option not found" None) = 404
  /\ outcome (VoteOnPoll localhost 1 2 "token")
       (result (vote_on_poll (answering (reply 404 "Poll or option not found" None))
                  localhost 1 2 "token"))
     = Some (Failure (Some (ValueError
               [Lit "Poll ID "; Fmt (VInt 1); Lit " or option ID "; Fmt (VInt 2);
                Lit " not found: "; Fmt (VStr "Poll or option not found")]))).
Proof.
  split; [reflexivity |].
  apply (vote_404_not_found localhost 1 2 "token"
           (reply 404 "Poll or option not found" None)).
  reflexivity.
Defined.

(** C7: a reply with status 401 makes the vote operation and the
    poll-creation operation report the same failure: the [ValueError] whose
    message starts with "Unauthorized" and whose detail is the text of the
    reply. *)
Theorem unauthorized_uniform r
    base_url poll_id option_id access_token base_url' question options access_token' :
  status_code r = 401 ->
  outcome (VoteOnPoll base_url poll_id option_id access_token)
    (result (vote_on_poll (answering r) base_url poll_id option_id access_token))
  = Some (Failure (Some (ValueError
            [Lit "Unauthorized - Invalid or expired token: "; Fmt (VStr (text r))])))
  /\ outcome (CreatePoll base_url' question options access_token')
       (result (create_poll (answering r) base_url' question options access_token'))
     = Some (Failure (Some (ValueError
               [Lit "Unauthorized - Invalid or expired token: "; Fmt (VStr (text r))]))).
Proof.
  destruct r as [st c tx j]. simpl. intros ->. split; reflexivity.
Qed.

Lemma unauthorized_uniform_witness :
  status_code (reply 401 "Could not validate credentials" None) = 401
  /\ outcome (VoteOnPoll localhost 1 2 "token")
       (result (vote_on_poll (answering (reply 401 "Could not validate credentials" None))
                  localhost 1 2 "token"))
     = outcome (CreatePoll localhost "Q" ["A"; "B"] "token")
         (result (create_poll (answering (reply 401 "Could not validate credentials" None))
                    localhost "Q" ["A"; "B"] "token")).
Proof.
  split; [reflexivity |].
  destruct (unauthorized_uniform (reply 401 "Could not validate credentials" None)
              localhost 1 2 "token" localhost "Q" ["A"; "B"] "token" eq_refl)
    as [Hvote Hcreate].
  rewrite Hvote, Hcreate. reflexivity.
Defined.

Ltac not_status st n :=
  replace (st =? n) with false by (symmetry; apply Z.eqb_neq; lia).

Ltac in_trace :=
  simpl; repeat (first [left; reflexivity | right]).

Lemma arguments_accepted_guards base_url poll_id access_token :
  arguments_accepted (GetPollResults base_url poll_id access_token) = true ->
  negb (isinstance_int poll_id) || int_le_zero poll_id = false
  /\ negb (truthy base_url) || negb (isinstance_str base_url) = false.
Proof.
  simpl. intros H. apply andb_prop in H. destruct H as [H1 H2].
  apply negb_true_iff in H1, H2. split; assumption.
Qed.

(** C9: when the status of the reply is below 400 and is none of the codes
    the function tests for, each of the four raising operations runs its
    [else] branch, where [raise_for_status] does not raise, and returns
    [None]: no success value and no failure. *)
Theorem unlisted_status_below_400_returns_None c r :
  raises_on_failure c = true ->
  ~ In (status_code r) (enumerated_statuses c) ->
  status_code r < 400 ->
  result (perform (answering r) c) = inl VNone
  /\ outcome c (result (perform (answering r) c)) = None.
Proof.
  intros Hraise Hnot Hlt.
  assert (Hres : result (perform (answering r) c) = inl VNone).
  { destruct r as [st ct tx j]; destruct c; try discriminate Hraise;
      simpl in Hnot, Hlt;
      unfold perform, register_user, create_poll, fetch_polls, vote_on_poll,
             send, answering, raise_for_status;
      cbn -[Z.eqb Z.leb Z.ltb];
      not_status st 200; try not_status st 400; try not_status st 401;
      try not_status st 404; try not_status st 422;
      replace (400 <=? st) with false by (symmetry; apply Z.leb_gt; lia);
      reflexivity. }
  split; [exact Hres |].
  rewrite Hres. unfold outcome. rewrite Hraise. reflexivity.
Qed.

Lemma unlisted_status_below_400_returns_None_witness :
  raises_on_failure (RegisterUser localhost "john_doe" "secure_password123") = true
  /\ ~ In (status_code (reply 201 "{}" (Some (VDict []))))
          (enumerated_statuses (RegisterUser localhost "john_doe" "secure_password123"))
  /\ status_code (reply 201 "{}" (Some (VDict []))) < 400
  /\ result (perform (answering (reply 201 "{}" (Some (VDict []))))
               (RegisterUser localhost "john_doe" "secure_password123")) = inl VNone.
Proof.
  assert (Hnot : ~ In (status_code (reply 201 "{}" (Some (VDict []))))
                     (enumerated_statuses
                        (RegisterUser localhost "john_doe" "secure_password123"))).
  { simpl. intros [H | [H | [H | []]]]; discriminate H. }
  assert (Hlt : status_code (reply 201 "{}" (Some (VDict []))) < 400) by reflexivity.
  split; [reflexivity |]. split; [exact Hnot |]. split; [exact Hlt |].
  exact (proj1 (unlisted_status_below_400_returns_None
                  (RegisterUser localhost "john_doe" "secure_password123")
                  (reply 201 "{}" (Some (VDict []))) eq_refl Hnot Hlt)).
Defined.

(** C2: a reply with status 200 whose body does not parse as JSON is a
    failure for every operation, and the decode error does not leave the
    function as it was raised.  The four raising operations catch it in
    their [except] clause and raise their own [RequestException], whose
    detail is the decode error; [get_poll_results] catches it as a
    [ValueError] and returns its failure value.  In both cases the decode
    error is written to the log at level ERROR. *)
Theorem invalid_json_200_is_failure c r :
  arguments_accepted c = true ->
  status_code r = 200 ->
  json r = None ->
  outcome c (result (perform (answering r) c))
  = Some (Failure (if raises_on_failure c
                   then Some (RequestException (wrapper_prefix c) JSONDecodeError)
                   else None))
  /\ exists label,
       In (Log ERROR [Lit label; FmtExn JSONDecodeError])
          (trace (perform (answering r) c)).
Proof.
  intros Hacc Hst Hj. destruct r as [st ct tx j]. simpl in Hst, Hj. subst st j.
  destruct c as [b u p | b q o t | b s l | b p o t | b p t].
  - split; [reflexivity |].
    exists "Network error during registration: ". in_trace.
  - split; [reflexivity |].
    exists "Network error during poll creation: ". in_trace.
  - split; [reflexivity |].
    exists "Network error while fetching polls: ". in_trace.
  - split; [reflexivity |].
    exists "Network error during voting: ". in_trace.
  - apply arguments_accepted_guards in Hacc. destruct Hacc as [H1 H2].
    unfold perform, get_poll_results. rewrite H1, H2.
    split; [reflexivity |].
    exists "Failed to parse JSON response: ". in_trace.
Qed.

Lemma invalid_json_200_is_failure_witness :
  arguments_accepted (GetPollResults (VStr localhost) (VInt 1) None) = true
  /\ status_code (reply 200 "<html>" None) = 200
  /\ json (reply 200 "<html>" None) = None
  /\ outcome (GetPollResults (VStr localhost) (VInt 1) None)
       (result (perform (answering (reply 200 "<html>" None))
                  (GetPollResults (VStr localhost) (VInt 1) None)))
     = Some (Failure None)
  /\ outcome (RegisterUser localhost "john_doe" "secure_password123")
       (result (perform (answering (reply 200 "<html>" None))
                  (RegisterUser localhost "john_doe" "secure_password123")))
     = Some (Failure (Some (RequestException "Failed to register user: "
                              JSONDecodeError))).
Proof.
  split; [reflexivity |]. split; [reflexivity |]. split; [reflexivity |].
  split.
  - exact (proj1 (invalid_json_200_is_failure
                    (GetPollResults (VStr localhost) (VInt 1) None)
                    (reply 200 "<html>" None) eq_refl eq_refl eq_refl)).
  - exact (proj1 (invalid_json_200_is_failure
                    (RegisterUser localhost "john_doe" "secure_password123")
                    (reply 200 "<html>" None) eq_refl eq_refl eq_refl)).
Defined.

(** C5, as the code has it: with status 422 the four raising operations
    raise the [ValueError] of the 422 branch.  Its detail is the sentinel
    "Validation error" when the reply has no content (zero bytes), and the
    parsed body when the reply has content that parses; a body [{}] has
    content, so its detail is the empty object.  Content that does not parse
    gives the [RequestException] of the [except] clause.
    [get_poll_results] returns [None] for every reply with status 422. *)
Theorem validation_error_detail c r :
  arguments_accepted c = true ->
  status_code r = 422 ->
  (raises_on_failure c = true ->
   (content r = [] ->
    outcome c (result (perform (answering r) c))
    = Some (Failure (Some (ValueError
              [Lit (validation_prefix c); Fmt (VStr "Validation error")]))))
   /\ (forall v, content r <> [] -> json r = Some v ->
       outcome c (result (perform (answering r) c))
       = Some (Failure (Some (ValueError [Lit (validation_prefix c); Fmt v]))))
   /\ (content r <> [] -> json r = None ->
       outcome c (result (perform (answering r) c))
       = Some (Failure (Some (RequestException (wrapper_prefix c) JSONDecodeError)))))
  /\ (raises_on_failure c = false ->
      outcome c (result (perform (answering r) c)) = Some (Failure None)).
Proof.
  intros Hacc Hst. destruct r as [st ct tx j]. simpl in Hst. subst st.
  split.
  - intros Hraise. split; [| split].
    + simpl. intros ->.
      destruct c; try discriminate Hraise; reflexivity.
    + simpl. intros v Hct ->.
      destruct ct as [| b0 ct]; [contradiction |].
      destruct c; try discriminate Hraise; reflexivity.
    + simpl. intros Hct ->.
      destruct ct as [| b0 ct]; [contradiction |].
      destruct c; try discriminate Hraise; reflexivity.
  - intros Hraise.
    destruct c as [b u p | b q o t | b s l | b p o t | b p t]; try discriminate Hraise.
    apply arguments_accepted_guards in Hacc. destruct Hacc as [H1 H2].
    unfold perform, get_poll_results. rewrite H1, H2. reflexivity.
Qed.

Lemma validation_error_detail_witness :
  arguments_accepted (VoteOnPoll localhost 1 2 "token") = true
  /\ status_code (reply 422 "{}" (Some (VDict []))) = 422
  /\ content (reply 422 "{}" (Some (VDict []))) <> []
  /\ outcome (VoteOnPoll localhost 1 2 "token")
       (result (perform (answering (reply 422 "{}" (Some (VDict []))))
                  (VoteOnPoll localhost 1 2 "token")))
     = Some (Failure (Some (ValueError [Lit "Invalid vote data: "; Fmt (VDict [])])))
  /\ outcome (VoteOnPoll localhost 1 2 "token")
       (result (perform (answering (reply 422 "" None)) (VoteOnPoll localhost 1 2 "token")))
     = Some (Failure (Some (ValueError
               [Lit "Invalid vote data: "; Fmt (VStr "Validation error")])))
  /\ outcome (GetPollResults (VStr localhost) (VInt 1) None)
       (result (perform (answering (reply 422 "{}" (Some (VDict []))))
                  (GetPollResults (VStr localhost) (VInt 1) None)))
     = Some (Failure None).
Proof.
  assert (Hct : content (reply 422 "{}" (Some (VDict []))) <> [])
    by (intros H; discriminate H).
  split; [reflexivity |]. split; [reflexivity |]. split; [exact Hct |].
  split; [| split].
  - exact (proj1 (proj2 (proj1 (validation_error_detail
                                  (VoteOnPoll localhost 1 2 "token")
                                  (reply 422 "{}" (Some (VDict []))) eq_refl eq_refl)
                           eq_refl))
             (VDict []) Hct eq_refl).
  - exact (proj1 (proj1 (validation_error_detail (VoteOnPoll localhost 1 2 "token")
                           (reply 422 "" None) eq_refl eq_refl) eq_refl) eq_refl).
  - exact (proj2 (validation_error_detail (GetPollResults (VStr localhost) (VInt 1) None)
                    (reply 422 "{}" (Some (VDict []))) eq_refl eq_refl) eq_refl).
Defined.

(** C5 as stated fails on the body [{}]: the reply has two bytes of content,
    so the detail is the parsed empty object and not the sentinel. *)
Lemma validation_error_empty_object_counterexample :
  has_content (reply 422 "{}" (Some (VDict []))) = true
  /\ outcome (RegisterUser localhost "john_doe" "secure_password123")
       (result (register_user (answering (reply 422 "{}" (Some (VDict []))))
                  localhost "john_doe" "secure_password123"))
     = Some (Failure (Some (ValueError [Lit "Invalid input data: "; Fmt (VDict [])])))
  /\ outcome (RegisterUser localhost "john_doe" "secure_password123")
       (result (register_user (answering (reply 422 "{}" (Some (VDict []))))
                  localhost "john_doe" "secure_password123"))
     <> Some (Failure (Some (ValueError
                [Lit "Invalid input data: "; Fmt (VStr "Validation error")]))).
Proof.
  split; [reflexivity |]. split; [reflexivity |].
  intros H. discriminate H.
Qed.

(** ** Bodies that are not objects *)

(** C1 at the status 200: a body that parses to [null], a boolean or a
    number makes every operation leave by an exception of the runtime
    ([AttributeError] from [.get], [TypeError] from [len] or [in]) that no
    [except] clause handles: the call has no outcome, neither a value nor a
    failure of the function's own. *)
Theorem scalar_body_leaves_no_outcome c r v :
  arguments_accepted c = true ->
  status_code r = 200 ->
  json r = Some v ->
  is_json_scalar v = true ->
  outcome c (result (perform (answering r) c)) = None
  /\ exists e, result (perform (answering r) c) = inr e
               /\ is_raised_failure e = false
               /\ is_RequestException e = false.
Proof.
  intros Hacc Hst Hj Hv. destruct r as [st ct tx j]. simpl in Hst, Hj. subst st j.
  destruct c as [b u p | b q o t | b s l | b p o t | b p t].
  - destruct v; try discriminate Hv;
      (split; [reflexivity | exists AttributeError; repeat split]).
  - destruct v; try discriminate Hv;
      (split; [reflexivity | exists AttributeError; repeat split]).
  - destruct v; try discriminate Hv;
      (split; [reflexivity | exists TypeError; repeat split]).
  - destruct v; try discriminate Hv;
      (split; [reflexivity | exists AttributeError; repeat split]).
  - apply arguments_accepted_guards in Hacc. destruct Hacc as [H1 H2].
    unfold perform, get_poll_results. rewrite H1, H2.
    destruct v; try discriminate Hv;
      (split; [reflexivity | exists TypeError; repeat split]).
Qed.

Lemma scalar_body_leaves_no_outcome_witness :
  arguments_accepted (FetchPolls localhost 0 10) = true
  /\ status_code (reply 200 "null" (Some VNone)) = 200
  /\ json (reply 200 "null" (Some VNone)) = Some VNone
  /\ is_json_scalar VNone = true
  /\ outcome (FetchPolls localhost 0 10)
       (result (perform (answering (reply 200 "null" (Some VNone)))
                  (FetchPolls localhost 0 10))) = None.
Proof.
  split; [reflexivity |]. split; [reflexivity |]. split; [reflexivity |].
  split; [reflexivity |].
  exact (proj1 (scalar_body_leaves_no_outcome (FetchPolls localhost 0 10)
                  (reply 200 "null" (Some VNone)) VNone
                  eq_refl eq_refl eq_refl eq_refl)).
Defined.

(** C10 at the status 200: when the body parses to [null], a boolean or a
    number, the membership test [field in poll_data] of [get_poll_results]
    raises [TypeError], which is neither the [ValueError] of the inner
    [except] clause nor a [RequestException] of the outer ones, so the call
    raises instead of returning [None]. *)
Theorem get_poll_results_raises_on_scalar_body base_url poll_id access_token r v :
  arguments_accepted (GetPollResults base_url poll_id access_token) = true ->
  status_code r = 200 ->
  json r = Some v ->
  is_json_scalar v = true ->
  result (get_poll_results (answering r) base_url poll_id access_token) = inr TypeError.
Proof.
  intros Hacc Hst Hj Hv. destruct r as [st ct tx j]. simpl in Hst, Hj. subst st j.
  apply arguments_accepted_guards in Hacc. destruct Hacc as [H1 H2].
  unfold get_poll_results. rewrite H1, H2.
  destruct v; try discriminate Hv; reflexivity.
Qed.

Lemma get_poll_results_raises_on_scalar_body_witness :
  arguments_accepted (GetPollResults (VStr localhost) (VInt 1) None) = true
  /\ status_code (reply 200 "null" (Some VNone)) = 200
  /\ json (reply 200 "null" (Some VNone)) = Some VNone
  /\ is_json_scalar VNone = true
  /\ result (get_poll_results (answering (reply 200 "null" (Some VNone)))
               (VStr localhost) (VInt 1) None) = inr TypeError.
Proof.
  split; [reflexivity |]. split; [reflexivity |]. split; [reflexivity |].
  split; [reflexivity |].
  exact (get_poll_results_raises_on_scalar_body (VStr localhost) (VInt 1) None
           (reply 200 "null" (Some VNone)) VNone eq_refl eq_refl eq_refl eq_refl).
Defined.

(** ** URL construction *)

Lemma rstrip_slashes n : rstrip "/" (slashes n) = "".
Proof.
  induction n as [| n IH]; simpl; [reflexivity |]. rewrite IH. reflexivity.
Qed.

Lemma rstrip_app_slashes s n : rstrip "/" (s ++ slashes n) = rstrip "/" s.
Proof.
  induction s as [| a s IH]; simpl.
  - apply rstrip_slashes.
  - rewrite IH. reflexivity.
Qed.

Lemma rstrip_decompose s : exists k, s = rstrip "/" s ++ slashes k.
Proof.
  induction s as [| a s [k IH]]; simpl.
  - exists O. reflexivity.
  - destruct (rstrip "/" s) as [| b r] eqn:E.
    + destruct (Ascii.eqb a "/") eqn:Ea.
      * apply Ascii.eqb_eq in Ea. subst a. exists (S k). simpl.
        f_equal. exact IH.
      * exists k. simpl. f_equal. exact IH.
    + exists k. simpl. f_equal. exact IH.
Qed.

Lemma rstrip_no_trailing_slash s : ends_with_slash (rstrip "/" s) = false.
Proof.
  induction s as [| a s IH]; simpl; [reflexivity |].
  destruct (rstrip "/" s) as [| b r] eqn:E.
  - destruct (Ascii.eqb a "/") eqn:Ea; simpl; [reflexivity | exact Ea].
  - exact IH.
Qed.

(** The URL of [request_url] is the one of the request an operation hands to
    the transport, whatever the transport answers. *)
Lemma perform_first_request net c :
  arguments_accepted c = true ->
  hd_error (sent_urls (trace (perform net c))) = Some (request_url c).
Proof.
  intros Hacc.
  destruct c as [b u p | b q o t | b s l | b p o t | b p t]; cbn [perform request_url].
  - unfold register_user, send.
    rewrite trace_try_except, !trace_bind. reflexivity.
  - unfold create_poll, send.
    rewrite trace_try_except, !trace_bind. reflexivity.
  - unfold fetch_polls, send.
    rewrite trace_try_except, !trace_bind. reflexivity.
  - unfold vote_on_poll, send.
    rewrite trace_try_except, !trace_bind. reflexivity.
  - apply arguments_accepted_guards in Hacc. destruct Hacc as [H1 H2].
    unfold get_poll_results, send. rewrite H1, H2.
    rewrite trace_bind. cbn [result trace logger_info emit fst snd].
    rewrite trace_try_except, !trace_bind. reflexivity.
Qed.

Lemma arguments_accepted_app_slashes c b n :
  arguments_accepted (with_base_url c b) = true ->
  arguments_accepted (with_base_url c (b ++ slashes n)) = true.
Proof.
  destruct c; simpl; try reflexivity.
  destruct b; simpl; [| intros H; exact H].
  rewrite andb_false_r. discriminate.
Qed.

(** C8, as the code has it: [register_user], [create_poll], [fetch_polls]
    and [vote_on_poll] build the URL of their request, for every base URL,
    from the base URL with all trailing '/' removed, followed by the path
    of the operation; a base URL and the same base URL with any number of
    '/' appended give the same request, and the same call altogether.
    [get_poll_results] does so for the base URLs it accepts, the non-empty
    ones (with a positive poll id); an empty base URL is turned away before
    any URL is built. *)
Theorem base_url_trailing_slashes_normalized net c b n :
  ends_with_slash (rstrip "/" b) = false
  /\ (exists k, b = rstrip "/" b ++ slashes k)
  /\ (raises_on_failure c = true ->
      hd_error (sent_urls (trace (perform net (with_base_url c b))))
      = Some (rstrip "/" b ++ request_path c)
      /\ perform net (with_base_url c (b ++ slashes n))
         = perform net (with_base_url c b))
  /\ (raises_on_failure c = false ->
      arguments_accepted (with_base_url c b) = true ->
      hd_error (sent_urls (trace (perform net (with_base_url c b))))
      = Some (rstrip "/" b ++ request_path c)
      /\ hd_error (sent_urls (trace (perform net (with_base_url c (b ++ slashes n)))))
         = Some (rstrip "/" b ++ request_path c)).
Proof.
  assert (Hurl : forall b', request_url (with_base_url c b')
                            = rstrip "/" b' ++ request_path c)
    by (intros b'; destruct c; reflexivity).
  split; [apply rstrip_no_trailing_slash |].
  split; [apply rstrip_decompose |].
  split.
  - intros Hraise. split.
    + assert (Hacc : arguments_accepted (with_base_url c b) = true)
        by (destruct c; try discriminate Hraise; reflexivity).
      rewrite (perform_first_request net _ Hacc). rewrite Hurl. reflexivity.
    + destruct c; try discriminate Hraise; simpl;
        unfold register_user, create_poll, fetch_polls, vote_on_poll,
               register_user_url, create_poll_url, fetch_polls_url, vote_on_poll_url;
        rewrite rstrip_app_slashes; reflexivity.
  - intros _ Hacc. split.
    + rewrite (perform_first_request net _ Hacc). rewrite Hurl. reflexivity.
    + rewrite (perform_first_request net _ (arguments_accepted_app_slashes c b n Hacc)).
      rewrite Hurl, rstrip_app_slashes. reflexivity.
Qed.

Lemma base_url_trailing_slashes_normalized_witness :
  raises_on_failure (GetPollResults VNone (VInt 1) None) = false
  /\ arguments_accepted
       (with_base_url (GetPollResults VNone (VInt 1) None) "http://localhost:8000") = true
  /\ hd_error (sent_urls (trace (perform (failing Timeout)
        (with_base_url (GetPollResults VNone (VInt 1) None) "http://localhost:8000"))))
     = Some "http://localhost:8000/polls/1"
  /\ hd_error (sent_urls (trace (perform (failing Timeout)
        (with_base_url (GetPollResults VNone (VInt 1) None)
           ("http://localhost:8000" ++ slashes 2)))))
     = Some "http://localhost:8000/polls/1"
  /\ raises_on_failure (RegisterUser "" "john_doe" "secure_password123") = true
  /\ hd_error (sent_urls (trace (perform (failing Timeout)
        (with_base_url (RegisterUser "" "john_doe" "secure_password123")
           "http://localhost:8000/"))))
     = Some "http://localhost:8000/register".
Proof.
  split; [reflexivity |]. split; [reflexivity |].
  destruct (proj2 (proj2 (proj2
              (base_url_trailing_slashes_normalized (failing Timeout)
                 (GetPollResults VNone (VInt 1) None) "http://localhost:8000" 2)))
              eq_refl eq_refl) as [Hone Htwo].
  split; [exact Hone |]. split; [exact Htwo |]. split; [reflexivity |].
  exact (proj1 (proj1 (proj2 (proj2
           (base_url_trailing_slashes_normalized (failing Timeout)
              (RegisterUser "" "john_doe" "secure_password123")
              "http://localhost:8000/" 0))) eq_refl)).
Defined.

(** C8 as stated fails for [get_poll_results] at the empty base URL: with
    the empty string the call is turned away and sends nothing, and with
    that string followed by one '/' it sends a request to [/polls/1]. *)
Lemma base_url_empty_results_counterexample :
  sent_urls (trace (get_poll_results (failing OtherRequestError)
                      (VStr EmptyString) (VInt 1) None)) = []
  /\ sent_urls (trace (get_poll_results (failing OtherRequestError)
                         (VStr (EmptyString ++ "/")) (VInt 1) None)) = ["/polls/1"]
  /\ sent_urls (trace (get_poll_results (failing OtherRequestError)
                         (VStr EmptyString) (VInt 1) None))
     <> sent_urls (trace (get_poll_results (failing OtherRequestError)
                            (VStr (EmptyString ++ "/")) (VInt 1) None)).
Proof.
  split; [reflexivity |]. split; [reflexivity |].
  intros H. discriminate H.
Qed.

(** [get_poll_results] turns its arguments away without any request. *)
Lemma get_poll_results_rejects net base_url poll_id access_token :
  arguments_accepted (GetPollResults base_url poll_id access_token) = false ->
  result (get_poll_results net base_url poll_id access_token) = inl VNone
  /\ sent_urls (trace (get_poll_results net base_url poll_id access_token)) = [].
Proof.
  simpl. intros H. unfold get_poll_results.
  destruct (negb (isinstance_int poll_id) || int_le_zero poll_id); [split; reflexivity |].
  destruct (negb (truthy base_url) || negb (isinstance_str base_url));
    [split; reflexivity | discriminate H].
Qed.

(** The four raising operations use the base URL for the request URL only:
    appended slashes change nothing of the call. *)
Lemma raising_call_ignores_trailing_slashes net c b n :
  raises_on_failure c = true ->
  perform net (with_base_url c (b ++ slashes n)) = perform net (with_base_url c b).
Proof.
  intros H. destruct c; try discriminate H; simpl;
    unfold register_user, create_poll, fetch_polls, vote_on_poll,
           register_user_url, create_poll_url, fetch_polls_url, vote_on_poll_url;
    rewrite rstrip_app_slashes; reflexivity.
Qed.

(** ** Object bodies and required fields *)

Lemma py_all_in_dict keys d :
  py_all_in keys (VDict d) = inl (has_all_fields keys d).
Proof.
  induction keys as [| k ks IH]; simpl; [reflexivity |].
  destruct (dict_has k d); simpl; [exact IH | reflexivity].
Qed.

Lemma py_missing_dict keys d :
  py_missing keys (VDict d) = inl (missing_fields keys d).
Proof.
  induction keys as [| k ks IH]; simpl; [reflexivity |].
  rewrite IH. unfold missing_fields. simpl.
  destruct (dict_has k d); reflexivity.
Qed.

Lemma dict_has_lookup k d :
  dict_has k d = true -> exists v, dict_lookup k d = Some v.
Proof.
  induction d as [| [k' v'] d IH]; simpl; [discriminate |].
  destruct (String.eqb k' k); simpl; [exists v'; reflexivity | exact IH].
Qed.

Lemma has_all_fields_In fields d k :
  has_all_fields fields d = true -> In k fields -> dict_has k d = true.
Proof.
  unfold has_all_fields. rewrite forallb_forall. intros H Hin. exact (H k Hin).
Qed.

Lemma missing_fields_nonempty fields d :
  has_all_fields fields d = false -> missing_fields fields d <> [].
Proof.
  unfold has_all_fields, missing_fields.
  induction fields as [| k ks IH]; simpl; [discriminate |].
  destruct (dict_has k d); simpl; [exact IH | discriminate].
Qed.

Lemma options_all_valid_spec opts :
  options_all_valid opts = inl (forallb option_well_formed opts).
Proof.
  induction opts as [| o opts IH]; simpl; [reflexivity |].
  destruct o as [| b | z | q | s | l | d]; simpl; try reflexivity.
  unfold option_is_invalid. simpl.
  destruct (dict_has "id" d); simpl; [| reflexivity].
  destruct (dict_has "text" d); simpl; [exact IH | reflexivity].
Qed.

(** The loop of [fetch_polls] over a list of objects ends normally, and
    leaves one warning for each object that lacks a required field. *)
Lemma fetch_polls_check_objects polls :
  Forall (fun p => isinstance_dict p = true) polls ->
  result (fetch_polls_check polls) = inl tt
  /\ forall d, In (VDict d) polls ->
       has_all_fields fetch_polls_required_fields d = false ->
       In (Log WARNING
             [Lit "Poll ";
              Fmt (match dict_lookup "id" d with Some v => v | None => VStr "Unknown" end);
              Lit " missing required fields"])
          (trace (fetch_polls_check polls)).
Proof.
  induction 1 as [| p polls Hp _ [IHr IHt]]; [split; [reflexivity | intros d []] |].
  destruct p as [| | | | | | d0]; try discriminate Hp.
  cbn [fetch_polls_check]. rewrite py_all_in_dict.
  destruct (fetch_polls_check polls) as [t [[] | e]];
    cbn [result snd] in IHr; [| discriminate IHr].
  cbn [trace fst] in IHt.
  split.
  - destruct (has_all_fields fetch_polls_required_fields d0); reflexivity.
  - intros d [Hd | Hd] Hmiss.
    + injection Hd as ->. rewrite Hmiss. cbn. left. reflexivity.
    + specialize (IHt d Hd Hmiss).
      destruct (has_all_fields fetch_polls_required_fields d0); cbn;
        [exact IHt | right; exact IHt].
Qed.

Ltac run_py :=
  cbn -[py_all_in py_missing has_all_fields missing_fields dict_lookup
        options_all_valid fetch_polls_check forallb];
  rewrite ?py_all_in_dict, ?py_missing_dict, ?options_all_valid_spec.

(** [fetch_polls] on an array of objects: the array is returned, and each
    incomplete item leaves its warning in the log. *)
Lemma fetch_polls_objects r polls b s l :
  status_code r = 200 -> json r = Some (VList polls) ->
  Forall (fun p => isinstance_dict p = true) polls ->
  result (fetch_polls (answering r) b s l) = inl (VList polls)
  /\ forall d, In (VDict d) polls ->
       has_all_fields fetch_polls_required_fields d = false ->
       In (Log WARNING
             [Lit "Poll ";
              Fmt (match dict_lookup "id" d with
                   | Some v => v
                   | None => VStr "Unknown"
                   end);
              Lit " missing required fields"])
          (trace (fetch_polls (answering r) b s l)).
Proof.
  destruct r as [st ct tx j]. intros Hst Hj Hall. simpl in Hst, Hj. subst st j.
  destruct (fetch_polls_check_objects polls Hall) as [Hr Ht].
  unfold fetch_polls, send, answering. run_py.
  destruct (fetch_polls_check polls) as [tr [[] | e]];
    cbn [result snd] in Hr; [| discriminate Hr].
  cbn [trace fst] in Ht. split; [reflexivity |].
  intros d Hd Hmiss. cbn. right. right. right.
  rewrite app_nil_r. exact (Ht d Hd Hmiss).
Qed.

(** C3, as the code has it: with status 200 and an object body that lacks a
    required field, [create_poll] and [vote_on_poll] return the body and
    log a warning that lists the missing fields; [fetch_polls] returns an
    array of objects and logs one warning per incomplete item; but
    [get_poll_results] reports a failure: it logs an error and returns
    [None]. *)
Theorem missing_fields_policy :
  (forall r d,
      status_code r = 200 -> json r = Some (VDict d) ->
      (forall b q o t,
          has_all_fields create_poll_required_fields d = false ->
          outcome (CreatePoll b q o t) (result (create_poll (answering r) b q o t))
          = Some (Success (VDict d))
          /\ In (Log WARNING
                   [Lit "Created poll missing required fields: ";
                    Fmt (VList (map VStr (missing_fields create_poll_required_fields d)))])
                (trace (create_poll (answering r) b q o t)))
      /\ (forall b p o t,
          has_all_fields vote_on_poll_required_fields d = false ->
          outcome (VoteOnPoll b p o t) (result (vote_on_poll (answering r) b p o t))
          = Some (Success (VDict d))
          /\ In (Log WARNING
                   [Lit "Vote response missing required fields: ";
                    Fmt (VList (map VStr (missing_fields vote_on_poll_required_fields d)))])
                (trace (vote_on_poll (answering r) b p o t)))
      /\ (forall b p t,
          arguments_accepted (GetPollResults b p t) = true ->
          has_all_fields get_poll_results_required_fields d = false ->
          outcome (GetPollResults b p t) (result (get_poll_results (answering r) b p t))
          = Some (Failure None)
          /\ In (Log ERROR [Lit "Invalid response structure. Missing required fields."])
                (trace (get_poll_results (answering r) b p t))))
  /\ (forall r polls b s l,
      status_code r = 200 -> json r = Some (VList polls) ->
      Forall (fun p => isinstance_dict p = true) polls ->
      outcome (FetchPolls b s l) (result (fetch_polls (answering r) b s l))
      = Some (Success (VList polls))
      /\ forall d, In (VDict d) polls ->
           has_all_fields fetch_polls_required_fields d = false ->
           In (Log WARNING
                 [Lit "Poll ";
                  Fmt (match dict_lookup "id" d with
                       | Some v => v
                       | None => VStr "Unknown"
                       end);
                  Lit " missing required fields"])
              (trace (fetch_polls (answering r) b s l))).
Proof.
  split.
  - intros [st ct tx j] d Hst Hj. simpl in Hst, Hj. subst st j.
    split; [| split].
    + intros b q o t Hmiss. unfold create_poll, send, answering.
      run_py. rewrite Hmiss. run_py. split; [reflexivity | in_trace].
    + intros b p o t Hmiss. unfold vote_on_poll, send, answering.
      run_py. rewrite Hmiss. run_py. split; [reflexivity | in_trace].
    + intros b p t Hacc Hmiss.
      apply arguments_accepted_guards in Hacc. destruct Hacc as [H1 H2].
      unfold get_poll_results, send, answering. rewrite H1, H2.
      run_py. rewrite Hmiss. run_py. split; [reflexivity | in_trace].
  - intros r polls b s l Hst Hj Hall.
    destruct (fetch_polls_objects r polls b s l Hst Hj Hall) as [Hr Ht].
    split; [| exact Ht].
    unfold outcome. cbn [raises_on_failure]. rewrite Hr. reflexivity.
Qed.

Lemma missing_fields_policy_witness :
  status_code (reply 200 "{}" (Some (VDict []))) = 200
  /\ has_all_fields create_poll_required_fields [] = false
  /\ has_all_fields get_poll_results_required_fields [] = false
  /\ outcome (CreatePoll localhost "Q" ["A"; "B"] "token")
       (result (create_poll (answering (reply 200 "{}" (Some (VDict []))))
                  localhost "Q" ["A"; "B"] "token"))
     = Some (Success (VDict []))
  /\ outcome (GetPollResults (VStr localhost) (VInt 1) None)
       (result (get_poll_results (answering (reply 200 "{}" (Some (VDict []))))
                  (VStr localhost) (VInt 1) None))
     = Some (Failure None)
  /\ outcome (FetchPolls localhost 0 10)
       (result (fetch_polls (answering (reply 200 "[{}]" (Some (VList [VDict []]))))
                  localhost 0 10))
     = Some (Success (VList [VDict []])).
Proof.
  split; [reflexivity |]. split; [reflexivity |]. split; [reflexivity |].
  pose proof (proj1 missing_fields_policy (reply 200 "{}" (Some (VDict []))) []
                eq_refl eq_refl) as [Hcreate [_ Hresults]].
  assert (Hobjects : Forall (fun p => isinstance_dict p = true) [VDict []])
    by (constructor; [reflexivity | constructor]).
  split; [| split].
  - exact (proj1 (Hcreate localhost "Q" ["A"; "B"] "token" eq_refl)).
  - exact (proj1 (Hresults (VStr localhost) (VInt 1) None eq_refl eq_refl)).
  - exact (proj1 (proj2 missing_fields_policy
                    (reply 200 "[{}]" (Some (VList [VDict []]))) [VDict []]
                    localhost 0 10 eq_refl eq_refl Hobjects)).
Defined.

(** C3 as stated fails for [get_poll_results]: the body [{}] is valid JSON
    and lacks the required fields, and the call returns [None], not the
    body. *)
Lemma missing_fields_results_counterexample :
  json (reply 200 "{}" (Some (VDict []))) = Some (VDict [])
  /\ has_all_fields get_poll_results_required_fields [] = false
  /\ result (get_poll_results (answering (reply 200 "{}" (Some (VDict []))))
               (VStr localhost) (VInt 1) None) = inl VNone
  /\ outcome (GetPollResults (VStr localhost) (VInt 1) None)
       (result (get_poll_results (answering (reply 200 "{}" (Some (VDict []))))
                  (VStr localhost) (VInt 1) None))
     <> Some (Success (VDict [])).
Proof.
  split; [reflexivity |]. split; [reflexivity |]. split; [reflexivity |].
  intros H. discriminate H.
Qed.

(** C4, as the code has it: with status 200 and an object body,
    [register_user] returns the body; [create_poll] returns it when it has
    the five required fields and [options] is an array; [vote_on_poll]
    returns it when it has the four required fields; [get_poll_results]
    returns it when it has the five required fields and moreover [options]
    is an array of objects that each have [id] and [text], and returns
    [None] otherwise; [fetch_polls] raises its [ValueError] for an object
    and returns an array of objects as it is.  The value returned is the
    parsed body itself. *)
Theorem complete_body_returned_unchanged :
  (forall r d,
      status_code r = 200 -> json r = Some (VDict d) ->
      (forall b u p,
          outcome (RegisterUser b u p) (result (register_user (answering r) b u p))
          = Some (Success (VDict d)))
      /\ (forall b q o t opts,
          has_all_fields create_poll_required_fields d = true ->
          dict_lookup "options" d = Some (VList opts) ->
          outcome (CreatePoll b q o t) (result (create_poll (answering r) b q o t))
          = Some (Success (VDict d)))
      /\ (forall b p o t,
          has_all_fields vote_on_poll_required_fields d = true ->
          outcome (VoteOnPoll b p o t) (result (vote_on_poll (answering r) b p o t))
          = Some (Success (VDict d)))
      /\ (forall b p t,
          arguments_accepted (GetPollResults b p t) = true ->
          has_all_fields get_poll_results_required_fields d = true ->
          outcome (GetPollResults b p t) (result (get_poll_results (answering r) b p t))
          = match dict_lookup "options" d with
            | Some (VList opts) =>
                if forallb option_well_formed opts
                then Some (Success (VDict d))
                else Some (Failure None)
            | _ => Some (Failure None)
            end)
      /\ (forall b s l,
          outcome (FetchPolls b s l) (result (fetch_polls (answering r) b s l))
          = Some (Failure (Some (ValueError
                    [Lit "Invalid response format: expected list of polls"])))))
  /\ (forall r polls b s l,
      status_code r = 200 -> json r = Some (VList polls) ->
      Forall (fun p => isinstance_dict p = true) polls ->
      outcome (FetchPolls b s l) (result (fetch_polls (answering r) b s l))
      = Some (Success (VList polls))).
Proof.
  split.
  - intros [st ct tx j] d Hst Hj. simpl in Hst, Hj. subst st j.
    split; [| split; [| split; [| split]]].
    + intros b u p. reflexivity.
    + intros b q o t opts Hall Hopts. unfold create_poll, send, answering.
      run_py. rewrite Hall. run_py. rewrite Hopts. reflexivity.
    + intros b p o t Hall. unfold vote_on_poll, send, answering.
      run_py. rewrite Hall. reflexivity.
    + intros b p t Hacc Hall.
      apply arguments_accepted_guards in Hacc. destruct Hacc as [H1 H2].
      destruct (dict_has_lookup "options" d) as [opts Hopts];
        [apply (has_all_fields_In _ _ _ Hall); simpl; auto |].
      destruct (dict_has_lookup "question" d) as [qu Hqu];
        [apply (has_all_fields_In _ _ _ Hall); simpl; auto |].
      unfold get_poll_results, send, answering. rewrite H1, H2.
      run_py. rewrite Hall. run_py. rewrite Hopts.
      destruct opts as [| | | | | opts |]; try reflexivity.
      run_py. destruct (forallb option_well_formed opts); [| reflexivity].
      run_py. rewrite ?Hqu, ?Hopts. reflexivity.
    + intros b s l. reflexivity.
  - intros r polls b s l Hst Hj Hall.
    unfold outcome. cbn [raises_on_failure].
    rewrite (proj1 (fetch_polls_objects r polls b s l Hst Hj Hall)). reflexivity.
Qed.

Lemma complete_body_returned_unchanged_witness :
  status_code (reply 200 example_poll_text (Some (VDict example_poll))) = 200
  /\ has_all_fields create_poll_required_fields example_poll = true
  /\ has_all_fields vote_on_poll_required_fields example_vote = true
  /\ arguments_accepted (GetPollResults (VStr localhost) (VInt 1) None) = true
  /\ has_all_fields get_poll_results_required_fields example_results = true
  /\ outcome (CreatePoll localhost "Q" ["A"] "token")
       (result (create_poll (answering (reply 200 example_poll_text
                                          (Some (VDict example_poll))))
                  localhost "Q" ["A"] "token"))
     = Some (Success (VDict example_poll))
  /\ outcome (VoteOnPoll localhost 1 2 "token")
       (result (vote_on_poll (answering (reply 200 example_vote_text
                                           (Some (VDict example_vote))))
                  localhost 1 2 "token"))
     = Some (Success (VDict example_vote))
  /\ outcome (GetPollResults (VStr localhost) (VInt 1) None)
       (result (get_poll_results (answering (reply 200 example_results_text
                                               (Some (VDict example_results))))
                  (VStr localhost) (VInt 1) None))
     = Some (Success (VDict example_results)).
Proof.
  split; [reflexivity |]. split; [reflexivity |]. split; [reflexivity |].
  split; [reflexivity |]. split; [reflexivity |].
  split; [| split].
  - pose proof (proj1 complete_body_returned_unchanged
                  (reply 200 example_poll_text (Some (VDict example_poll)))
                  example_poll eq_refl eq_refl) as [_ [Hcreate _]].
    exact (Hcreate localhost "Q" ["A"] "token"
             [VDict [("id", VInt 1); ("text", VStr "A"); ("poll_id", VInt 1)]]
             eq_refl eq_refl).
  - pose proof (proj1 complete_body_returned_unchanged
                  (reply 200 example_vote_text (Some (VDict example_vote)))
                  example_vote eq_refl eq_refl) as [_ [_ [Hvote _]]].
    exact (Hvote localhost 1 2 "token" eq_refl).
  - pose proof (proj1 complete_body_returned_unchanged
                  (reply 200 example_results_text (Some (VDict example_results)))
                  example_results eq_refl eq_refl) as [_ [_ [_ [Hresults _]]]].
    exact (Hresults (VStr localhost) (VInt 1) None eq_refl eq_refl).
Defined.

(** C4 as stated fails for [get_poll_results]: the body below is a JSON
    object with all five required fields, and the call returns [None]
    because [options] is not an array. *)
Lemma complete_body_results_counterexample :
  json (reply 200 example_results_null_options_text
          (Some (VDict example_results_null_options)))
  = Some (VDict example_results_null_options)
  /\ has_all_fields get_poll_results_required_fields example_results_null_options = true
  /\ result (get_poll_results
               (answering (reply 200 example_results_null_options_text
                             (Some (VDict example_results_null_options))))
               (VStr localhost) (VInt 1) None) = inl VNone
  /\ outcome (GetPollResults (VStr localhost) (VInt 1) None)
       (result (get_poll_results
                  (answering (reply 200 example_results_null_options_text
                                (Some (VDict example_results_null_options))))
                  (VStr localhost) (VInt 1) None))
     <> Some (Success (VDict example_results_null_options)).
Proof.
  split; [reflexivity |]. split; [reflexivity |]. split; [reflexivity |].
  intros H. discriminate H.
Qed.

(** ** What does hold of totality *)

(** For the five failure codes every operation has an outcome, whatever the
    body. *)
Lemma error_status_has_outcome c r :
  arguments_accepted c = true ->
  In (status_code r) [400; 401; 404; 422; 500] ->
  exists o, outcome c (result (perform (answering r) c)) = Some o.
Proof.
  intros Hacc Hin. destruct r as [st ct tx j]. simpl in Hin.
  destruct c as [b u p | b q o t | b s l | b p o t | b p t].
  5: { apply arguments_accepted_guards in Hacc. destruct Hacc as [H1 H2].
       unfold perform, get_poll_results. rewrite H1, H2.
       destruct Hin as [<- | [<- | [<- | [<- | [<- | []]]]]];
         eexists; reflexivity. }
  all: destruct Hin as [<- | [<- | [<- | [<- | [<- | []]]]]];
    try (eexists; reflexivity);
    destruct ct as [| b0 ct]; try (eexists; reflexivity);
    destruct j as [v |]; eexists; reflexivity.
Qed.

(** A transport error is a failure for every operation: the four raising
    operations wrap it in their [RequestException], [get_poll_results]
    returns [None]. *)
Lemma transport_error_is_failure c t :
  arguments_accepted c = true ->
  outcome c (result (perform (failing t) c))
  = Some (Failure (if raises_on_failure c
                   then Some (RequestException (wrapper_prefix c) (Transport t))
                   else None)).
Proof.
  intros Hacc.
  destruct c as [b u p | b q o tk | b s l | b p o tk | b p tk]; try reflexivity.
  apply arguments_accepted_guards in Hacc. destruct Hacc as [H1 H2].
  unfold perform, get_poll_results. rewrite H1, H2.
  destruct t; reflexivity.
Qed.

(** [get_poll_results] does not raise as long as every body it receives
    with status 200 is an object or fails to parse: it returns [None] or
    the object. *)
Lemma get_poll_results_returns_on_object_bodies net base_url poll_id access_token :
  (forall req r v, net req = inl r -> status_code r = 200 -> json r = Some v ->
                   isinstance_dict v = true) ->
  result (get_poll_results net base_url poll_id access_token) = inl VNone
  \/ exists d, result (get_poll_results net base_url poll_id access_token)
               = inl (VDict d).
Proof.
  intros Hobj. unfold get_poll_results.
  destruct (negb (isinstance_int poll_id) || int_le_zero poll_id); [left; reflexivity |].
  destruct (negb (truthy base_url) || negb (isinstance_str base_url));
    [left; reflexivity |].
  unfold send.
  match goal with
  | |- context [net ?req] => destruct (net req) as [[st ct tx j] | te] eqn:Enet
  end.
  2: { destruct te; left; reflexivity. }
  destruct (Z.eqb_spec st 200) as [-> | Hne].
  - destruct j as [v |]; [| left; reflexivity].
    specialize (Hobj _ _ v Enet eq_refl eq_refl).
    destruct v as [| | | | | | d]; try discriminate Hobj.
    run_py.
    destruct (has_all_fields get_poll_results_required_fields d) eqn:Hall;
      [| left; reflexivity].
    destruct (dict_has_lookup "options" d) as [opts Hopts];
      [apply (has_all_fields_In _ _ _ Hall); simpl; auto |].
    destruct (dict_has_lookup "question" d) as [qu Hqu];
      [apply (has_all_fields_In _ _ _ Hall); simpl; auto |].
    run_py. rewrite Hopts.
    destruct opts as [| | | | | opts |]; try (left; reflexivity).
    run_py. destruct (forallb option_well_formed opts); [| left; reflexivity].
    run_py. rewrite ?Hqu, ?Hopts. right. exists d. reflexivity.
  - cbn -[Z.eqb]. apply Z.eqb_neq in Hne. rewrite Hne.
    destruct (st =? 401); [left; reflexivity |].
    destruct (st =? 404); [left; reflexivity |].
    destruct (st =? 422); left; reflexivity.
Qed.

(** * Further properties of the five functions *)

Ltac destruct_scrutinee :=
  match goal with
  | |- context [match ?x with _ => _ end] =>
      lazymatch x with
      | context [match _ with _ => _ end] => fail
      | _ => destruct x eqn:?
      end
  end.

Ltac crunch :=
  unfold raise_for_status in *;
  repeat (cbn -[Z.eqb Z.leb Z.ltb] in *; destruct_scrutinee).

Lemma sent_requests_app t1 t2 :
  sent_requests (t1 ++ t2) = (sent_requests t1 ++ sent_requests t2)%list.
Proof.
  induction t1 as [| [r | l m] t1 IH]; simpl; [reflexivity | f_equal; exact IH | exact IH].
Qed.

Lemma fetch_polls_check_sends_nothing polls :
  sent_requests (trace (fetch_polls_check polls)) = [].
Proof.
  induction polls as [| poll polls IH]; [reflexivity |].
  cbn [fetch_polls_check].
  destruct (fetch_polls_check polls) as [t r]. cbn [trace fst] in IH.
  crunch; cbn; rewrite ?sent_requests_app, ?IH; reflexivity.
Qed.

(** X1: a call hands exactly one request to the transport, whatever the
    transport answers: no operation retries or issues a second request.
    The one exception is [get_poll_results] with arguments it turns away,
    which sends nothing. *)
Theorem one_request_per_call net c :
  List.length (sent_requests (trace (perform net c)))
  = if arguments_accepted c then 1%nat else 0%nat.
Proof.
  destruct c as [b u p | b q o t | b s l | b p o t | b p t]; cbn [arguments_accepted].
  - unfold perform, register_user, send. crunch; reflexivity.
  - unfold perform, create_poll, send. crunch; reflexivity.
  - unfold perform, fetch_polls, send.
    destruct (net _) as [[st ct tx j] | te]; [| reflexivity].
    destruct (Z.eqb_spec st 200) as [-> | Hne].
    + destruct j as [v |]; [| reflexivity].
      destruct v as [| | | | | polls |]; try reflexivity.
      pose proof (fetch_polls_check_sends_nothing polls) as Hloop.
      cbn -[fetch_polls_check].
      destruct (fetch_polls_check polls) as [tl [[] | e]]; cbn [trace fst] in Hloop;
        crunch; cbn; rewrite ?sent_requests_app, ?Hloop; reflexivity.
    + apply Z.eqb_neq in Hne. cbn -[Z.eqb Z.leb Z.ltb]. rewrite Hne.
      crunch; reflexivity.
  - unfold perform, vote_on_poll, send. crunch; reflexivity.
  - unfold perform, get_poll_results, send.
    destruct (negb (isinstance_int p) || int_le_zero p); [reflexivity |].
    destruct (negb (truthy b) || negb (isinstance_str b)); [reflexivity |].
    cbn [negb andb]. crunch; reflexivity.
Qed.

(** X2: the request of a call carries the [Authorization] header the
    operation is meant to send: none for [register_user] and [fetch_polls],
    ["Bearer <token>"] for [create_poll] and [vote_on_poll] (also for an
    empty token), and for [get_poll_results] only when a non-empty token is
    given. *)
Theorem authorization_header net c req :
  In req (sent_requests (trace (perform net c))) ->
  header "Authorization" (req_headers req) = expected_authorization c.
Proof.
  destruct c as [b u p | b q o t | b s l | b p o t | b p t]; cbn [expected_authorization].
  - unfold perform, register_user, send.
    crunch; intros [<- | []]; reflexivity.
  - unfold perform, create_poll, send.
    crunch; intros [<- | []]; reflexivity.
  - unfold perform, fetch_polls, send.
    destruct (net _) as [[st ct tx j] | te]; [| intros [<- | []]; reflexivity].
    destruct (Z.eqb_spec st 200) as [-> | Hne].
    + destruct j as [v |]; [| intros [<- | []]; reflexivity].
      destruct v as [| | | | | polls |]; try (intros [<- | []]; reflexivity).
      pose proof (fetch_polls_check_sends_nothing polls) as Hloop.
      cbn -[fetch_polls_check].
      destruct (fetch_polls_check polls) as [tl [[] | e]]; cbn [trace fst] in Hloop;
        crunch; cbn; rewrite ?sent_requests_app, ?Hloop; intros [<- | []]; reflexivity.
    + apply Z.eqb_neq in Hne. cbn -[Z.eqb Z.leb Z.ltb]. rewrite Hne.
      crunch; intros [<- | []]; reflexivity.
  - unfold perform, vote_on_poll, send.
    crunch; intros [<- | []]; reflexivity.
  - unfold perform, get_poll_results, send.
    destruct (negb (isinstance_int p) || int_le_zero p); [intros [] |].
    destruct (negb (truthy b) || negb (isinstance_str b)); [intros [] |].
    destruct t as [tok |]; [destruct (String.eqb tok "") eqn:Etok |];
      cbn [negb]; crunch; intros [<- | []]; reflexivity.
Qed.

Lemma authorization_header_witness :
  In (mkRequest GET "http://localhost:8000/polls/1" [] None
        [("Content-Type", "application/json"); ("Accept", "application/json")]
        (Some 30))
     (sent_requests (trace (perform (failing Timeout)
                              (GetPollResults (VStr localhost) (VInt 1) (Some "")))))
  /\ header "Authorization"
       [("Content-Type", "application/json"); ("Accept", "application/json")] = None.
Proof.
  assert (Hin : In (mkRequest GET "http://localhost:8000/polls/1" [] None
                      [("Content-Type", "application/json");
                       ("Accept", "application/json")] (Some 30))
                   (sent_requests (trace (perform (failing Timeout)
                      (GetPollResults (VStr localhost) (VInt 1) (Some ""))))))
    by (left; reflexivity).
  split; [exact Hin |].
  exact (authorization_header (failing Timeout)
           (GetPollResults (VStr localhost) (VInt 1) (Some "")) _ Hin).
Defined.

(** X3: for a status that the function does not test for, a raising
    operation ends according to [raise_for_status] alone: from 400 to 599 it
    raises its [RequestException] around the [HTTPError], and for any other
    code, 600 and above included, it returns [None]. *)
Theorem unlisted_status_result c r :
  raises_on_failure c = true ->
  ~ In (status_code r) (enumerated_statuses c) ->
  result (perform (answering r) c)
  = if (400 <=? status_code r) && (status_code r <? 600)
    then inr (RequestException (wrapper_prefix c) (HTTPError (status_code r)))
    else inl VNone.
Proof.
  intros Hraise Hnot.
  destruct r as [st ct tx j]; destruct c; try discriminate Hraise;
    simpl in Hnot;
    unfold perform, register_user, create_poll, fetch_polls, vote_on_poll,
           send, answering, raise_for_status;
    cbn -[Z.eqb Z.leb Z.ltb];
    not_status st 200; try not_status st 400; try not_status st 401;
    try not_status st 404; try not_status st 422;
    destruct ((400 <=? st) && (st <? 600)); reflexivity.
Qed.

Lemma unlisted_status_result_witness :
  raises_on_failure (CreatePoll localhost "Q" ["A"; "B"] "token") = true
  /\ ~ In (status_code (reply 403 "Forbidden" None))
          (enumerated_statuses (CreatePoll localhost "Q" ["A"; "B"] "token"))
  /\ result (perform (answering (reply 403 "Forbidden" None))
               (CreatePoll localhost "Q" ["A"; "B"] "token"))
     = inr (RequestException "Failed to create poll: " (HTTPError 403)).
Proof.
  assert (Hnot : ~ In (status_code (reply 403 "Forbidden" None))
                     (enumerated_statuses (CreatePoll localhost "Q" ["A"; "B"] "token"))).
  { simpl. intros [H | [H | [H | []]]]; discriminate H. }
  split; [reflexivity |]. split; [exact Hnot |].
  exact (unlisted_status_result (CreatePoll localhost "Q" ["A"; "B"] "token")
           (reply 403 "Forbidden" None) eq_refl Hnot).
Defined.

(** X4: when the transport fails before any reply (connection error,
    timeout, any other request error), a raising operation writes one ERROR
    record and raises its [RequestException] around the transport error;
    [get_poll_results] returns [None] and writes one ERROR record whose text
    depends on the kind of error. *)
Theorem transport_error_reported c t :
  arguments_accepted c = true ->
  (raises_on_failure c = true ->
   result (perform (failing t) c)
   = inr (RequestException (wrapper_prefix c) (Transport t))
   /\ log_levels (trace (perform (failing t) c)) = [ERROR]
   /\ log_records ERROR (trace (perform (failing t) c))
      = [[Lit (network_error_label c); FmtExn (Transport t)]])
  /\ (forall b p tok, c = GetPollResults b p tok ->
      result (perform (failing t) c) = inl VNone
      /\ log_records ERROR (trace (perform (failing t) c))
         = [match t with
            | ConnectionError => [Lit "Failed to connect to the API at "; Fmt b]
            | Timeout => [Lit "Request timed out"]
            | OtherRequestError => [Lit "Request failed: "; FmtExn (Transport t)]
            end]).
Proof.
  intros Hacc. split.
  - intros Hraise. destruct c; try discriminate Hraise; repeat split.
  - intros b p tok ->.
    apply arguments_accepted_guards in Hacc. destruct Hacc as [H1 H2].
    unfold perform, get_poll_results. rewrite H1, H2.
    destruct t; split; reflexivity.
Qed.

Lemma transport_error_reported_witness :
  arguments_accepted (GetPollResults (VStr localhost) (VInt 1) None) = true
  /\ result (perform (failing ConnectionError)
               (GetPollResults (VStr localhost) (VInt 1) None)) = inl VNone
  /\ result (perform (failing ConnectionError)
               (RegisterUser localhost "john_doe" "secure_password123"))
     = inr (RequestException "Failed to register user: " (Transport ConnectionError)).
Proof.
  split; [reflexivity |]. split.
  - exact (proj1 (proj2 (transport_error_reported
                           (GetPollResults (VStr localhost) (VInt 1) None)
                           ConnectionError eq_refl)
                    (VStr localhost) (VInt 1) None eq_refl)).
  - exact (proj1 (proj1 (transport_error_reported
                           (RegisterUser localhost "john_doe" "secure_password123")
                           ConnectionError eq_refl) eq_refl)).
Defined.

(** X5: [register_user], [create_poll] and [vote_on_poll] take the body of
    a 200 reply for an object without checking: any other JSON value, a
    string or an array as well as [null] or a number, ends the call with
    [AttributeError] at the first [.get]. *)
Theorem non_object_body_AttributeError r v :
  status_code r = 200 -> json r = Some v -> isinstance_dict v = false ->
  (forall b u p, result (register_user (answering r) b u p) = inr AttributeError)
  /\ (forall b q o t, result (create_poll (answering r) b q o t) = inr AttributeError)
  /\ (forall b p o t, result (vote_on_poll (answering r) b p o t) = inr AttributeError).
Proof.
  destruct r as [st ct tx j]. cbn [status_code json]. intros -> -> Hv.
  destruct v; try discriminate Hv; repeat split.
Qed.

Lemma non_object_body_AttributeError_witness :
  status_code (reply 200 "[]" (Some (VList []))) = 200
  /\ isinstance_dict (VList []) = false
  /\ result (vote_on_poll (answering (reply 200 "[]" (Some (VList []))))
               localhost 1 2 "token") = inr AttributeError.
Proof.
  split; [reflexivity |]. split; [reflexivity |].
  exact (proj2 (proj2 (non_object_body_AttributeError
                         (reply 200 "[]" (Some (VList []))) (VList [])
                         eq_refl eq_refl eq_refl))
           localhost 1 2 "token").
Defined.

(** X6: [fetch_polls] reports a 200 body that is an object or a string as
    a wrong format: it writes one ERROR record that names the type received
    and raises [ValueError("Invalid response format: expected list of
    polls")], which its own [except] clause does not catch. *)
Theorem fetch_polls_wrong_shape b s l r v :
  status_code r = 200 -> json r = Some v ->
  (isinstance_dict v = true \/ isinstance_str v = true) ->
  result (fetch_polls (answering r) b s l)
  = inr (ValueError [Lit "Invalid response format: expected list of polls"])
  /\ log_records ERROR (trace (fetch_polls (answering r) b s l))
     = [[Lit "Unexpected response format: expected list, got "; FmtType v]].
Proof.
  destruct r as [st ct tx j]. simpl. intros -> -> [H | H];
    destruct v; try discriminate H; split; reflexivity.
Qed.

Lemma fetch_polls_wrong_shape_witness :
  status_code (reply 200 "{}" (Some (VDict []))) = 200
  /\ isinstance_dict (VDict []) = true
  /\ result (fetch_polls (answering (reply 200 "{}" (Some (VDict [])))) localhost 0 10)
     = inr (ValueError [Lit "Invalid response format: expected list of polls"]).
Proof.
  split; [reflexivity |]. split; [reflexivity |].
  exact (proj1 (fetch_polls_wrong_shape localhost 0 10
                  (reply 200 "{}" (Some (VDict []))) (VDict [])
                  eq_refl eq_refl (or_introl eq_refl))).
Defined.

(** ** What [get_poll_results] hands back *)

Lemma guards_valid b p :
  negb (isinstance_int p) || int_le_zero p = false ->
  negb (truthy b) || negb (isinstance_str b) = false ->
  valid_poll_id p /\ valid_base_url b.
Proof.
  intros H1 H2. split.
  - destruct p as [| [|] | z | | | |]; simpl in *; try discriminate H1; [reflexivity |].
    apply Z.leb_gt in H1. exact H1.
  - destruct b as [| [|] | z | q | s | [| x l] | [| x d]]; simpl in *;
      try discriminate H2;
      try (destruct (negb (z =? 0)); discriminate H2);
      try (destruct (negb (Qeq_bool q 0)); discriminate H2).
    destruct (String.eqb_spec s "") as [-> | Hs]; [discriminate H2 | exact Hs].
Qed.

Lemma valid_guards b p :
  valid_poll_id p -> valid_base_url b ->
  negb (isinstance_int p) || int_le_zero p = false
  /\ negb (truthy b) || negb (isinstance_str b) = false.
Proof.
  intros Hp Hb. split.
  - destruct p as [| [|] | z | | | |]; simpl in *; try contradiction;
      try discriminate Hp; [reflexivity |].
    apply Z.leb_gt. exact Hp.
  - destruct b as [| | | | s | |]; simpl in *; try contradiction.
    apply String.eqb_neq in Hb. rewrite Hb. reflexivity.
Qed.

Lemma py_all_in_sized keys v :
  is_sized v = true -> exists b, py_all_in keys v = inl b.
Proof.
  intros Hv. induction keys as [| k ks [b IH]]; [exists true; reflexivity |].
  destruct v; try discriminate Hv; simpl in *;
    match goal with
    | |- context [if ?x then _ else _] => destruct x
    end; eauto.
Qed.

Lemma get_poll_results_cases net b p t :
  result (get_poll_results net b p t) = inl VNone
  \/ (exists d opts req r,
        result (get_poll_results net b p t) = inl (VDict d)
        /\ has_all_fields get_poll_results_required_fields d = true
        /\ dict_lookup "options" d = Some (VList opts)
        /\ forallb option_well_formed opts = true
        /\ net req = inl r /\ status_code r = 200 /\ json r = Some (VDict d))
  \/ (exists req r v,
        result (get_poll_results net b p t) = inr TypeError
        /\ net req = inl r /\ status_code r = 200 /\ json r = Some v
        /\ isinstance_dict v = false).
Proof.
  unfold get_poll_results.
  destruct (negb (isinstance_int p) || int_le_zero p); [left; reflexivity |].
  destruct (negb (truthy b) || negb (isinstance_str b)); [left; reflexivity |].
  unfold send.
  match goal with
  | |- context [net ?req] => destruct (net req) as [[st ct tx j] | te] eqn:Enet
  end.
  2: { destruct te; left; reflexivity. }
  destruct (Z.eqb_spec st 200) as [-> | Hne].
  - destruct j as [v |]; [| left; reflexivity].
    destruct v as [| bb | z | q | s | l | d].
    1-4: right; right; do 3 eexists; split; [reflexivity |];
         split; [exact Enet |]; repeat split.
    + destruct (py_all_in get_poll_results_required_fields (VStr s)) as [[|] | e] eqn:Hin.
      * right; right; do 3 eexists.
        split; [cbn -[py_all_in]; rewrite Hin; reflexivity |].
        split; [exact Enet |]; repeat split.
      * left. cbn -[py_all_in]. rewrite Hin. reflexivity.
      * destruct (py_all_in_sized get_poll_results_required_fields (VStr s) eq_refl)
          as [b' Hb']. rewrite Hb' in Hin. discriminate Hin.
    + destruct (py_all_in get_poll_results_required_fields (VList l)) as [[|] | e] eqn:Hin.
      * right; right; do 3 eexists.
        split; [cbn -[py_all_in]; rewrite Hin; reflexivity |].
        split; [exact Enet |]; repeat split.
      * left. cbn -[py_all_in]. rewrite Hin. reflexivity.
      * destruct (py_all_in_sized get_poll_results_required_fields (VList l) eq_refl)
          as [b' Hb']. rewrite Hb' in Hin. discriminate Hin.
    + run_py.
      destruct (has_all_fields get_poll_results_required_fields d) eqn:Hall;
        [| left; reflexivity].
      destruct (dict_has_lookup "options" d) as [opts Hopts];
        [apply (has_all_fields_In _ _ _ Hall); simpl; auto |].
      destruct (dict_has_lookup "question" d) as [qu Hqu];
        [apply (has_all_fields_In _ _ _ Hall); simpl; auto |].
      run_py. rewrite Hopts.
      destruct opts as [| | | | | opts |]; try (left; reflexivity).
      run_py. destruct (forallb option_well_formed opts) eqn:Hwf; [| left; reflexivity].
      run_py. rewrite ?Hqu, ?Hopts. right; left.
      exists d, opts. do 2 eexists.
      split; [reflexivity |]. split; [exact Hall |]. split; [exact Hopts |].
      split; [exact Hwf |]. split; [exact Enet |]. split; reflexivity.
  - cbn -[Z.eqb]. apply Z.eqb_neq in Hne. rewrite Hne.
    destruct (st =? 401); [left; reflexivity |].
    destruct (st =? 404); [left; reflexivity |].
    destruct (st =? 422); left; reflexivity.
Qed.

(** X7: whatever the transport does, a value other than [None] returned by
    [get_poll_results] is the parsed body of a 200 reply, and it is an
    object with the five required fields whose [options] is an array of
    objects that each have [id] and [text]. *)
Theorem get_poll_results_postcondition net b p t v :
  result (get_poll_results net b p t) = inl v ->
  v <> VNone ->
  exists d opts,
    v = VDict d
    /\ has_all_fields get_poll_results_required_fields d = true
    /\ dict_lookup "options" d = Some (VList opts)
    /\ forallb option_well_formed opts = true
    /\ exists req r, net req = inl r /\ status_code r = 200 /\ json r = Some v.
Proof.
  intros Hres Hv.
  destruct (get_poll_results_cases net b p t)
    as [H | [(d & opts & req & r & H & Hall & Hopts & Hwf & Hnet & Hst & Hj)
            | (req & r & v' & H & _)]];
    rewrite H in Hres.
  - injection Hres as <-. contradiction.
  - injection Hres as <-. exists d, opts. repeat split; try assumption.
    exists req, r. repeat split; assumption.
  - discriminate Hres.
Qed.

Lemma get_poll_results_postcondition_witness :
  result (get_poll_results
            (answering (reply 200 example_results_text (Some (VDict example_results))))
            (VStr localhost) (VInt 1) None) = inl (VDict example_results)
  /\ VDict example_results <> VNone
  /\ exists d opts,
       VDict example_results = VDict d
       /\ has_all_fields get_poll_results_required_fields d = true
       /\ dict_lookup "options" d = Some (VList opts)
       /\ forallb option_well_formed opts = true.
Proof.
  assert (Hv : VDict example_results <> VNone) by (intros H; discriminate H).
  split; [reflexivity |]. split; [exact Hv |].
  destruct (get_poll_results_postcondition
              (answering (reply 200 example_results_text (Some (VDict example_results))))
              (VStr localhost) (VInt 1) None (VDict example_results) eq_refl Hv)
    as (d & opts & Hd & Hall & Hopts & Hwf & _).
  exists d, opts. repeat split; assumption.
Defined.

(** X8: once the transport has handed back a reply, the only exception
    [get_poll_results] can end with is [TypeError], and only for a reply
    with status 200 whose body parses to something that is not an object;
    and a transport error that is a [RequestException] (connection error,
    timeout or any other) never makes it raise. *)
Theorem get_poll_results_raises_only_TypeError b p t :
  (forall r e,
      result (get_poll_results (answering r) b p t) = inr e ->
      e = TypeError
      /\ status_code r = 200
      /\ exists v, json r = Some v /\ isinstance_dict v = false)
  /\ (forall te e, result (get_poll_results (failing te) b p t) <> inr e).
Proof.
  split.
  - intros r e Hres.
    destruct (get_poll_results_cases (answering r) b p t)
      as [H | [(d & opts & req & r' & H & _)
              | (req & r' & v' & H & Hnet & Hst & Hj & Hv)]];
      rewrite H in Hres; try discriminate Hres.
    injection Hres as <-. unfold answering in Hnet. injection Hnet as <-.
    split; [reflexivity |]. split; [exact Hst |].
    exists v'. split; assumption.
  - intros te e Hres.
    destruct (get_poll_results_cases (failing te) b p t)
      as [H | [(d & opts & req & r' & H & _ & _ & _ & Hnet & _)
              | (req & r' & v' & H & Hnet & _)]].
    + rewrite H in Hres. discriminate Hres.
    + unfold failing in Hnet. discriminate Hnet.
    + unfold failing in Hnet. discriminate Hnet.
Qed.

Lemma get_poll_results_raises_only_TypeError_witness :
  result (get_poll_results (answering (reply 200 "null" (Some VNone)))
            (VStr localhost) (VInt 1) None) = inr TypeError
  /\ status_code (reply 200 "null" (Some VNone)) = 200
  /\ exists v, json (reply 200 "null" (Some VNone)) = Some v
               /\ isinstance_dict v = false.
Proof.
  split; [reflexivity |].
  exact (proj2 (proj1 (get_poll_results_raises_only_TypeError
                         (VStr localhost) (VInt 1) None)
                  (reply 200 "null" (Some VNone)) TypeError eq_refl)).
Defined.

(** X9: [get_poll_results] writes exactly one ERROR record when it returns
    [None] and none when it returns a poll or raises; it never writes a
    WARNING record. *)
Theorem get_poll_results_error_log net b p t :
  List.length (log_records ERROR (trace (get_poll_results net b p t)))
  = match result (get_poll_results net b p t) with
    | inl VNone => 1%nat
    | _ => 0%nat
    end
  /\ log_records WARNING (trace (get_poll_results net b p t)) = [].
Proof.
  unfold get_poll_results.
  destruct (negb (isinstance_int p) || int_le_zero p); [split; reflexivity |].
  destruct (negb (truthy b) || negb (isinstance_str b)); [split; reflexivity |].
  unfold send.
  match goal with
  | |- context [net ?req] => destruct (net req) as [[st ct tx j] | te]
  end.
  2: { destruct te; split; reflexivity. }
  destruct (Z.eqb_spec st 200) as [-> | Hne].
  - destruct j as [v |]; [| split; reflexivity].
    destruct v as [| bb | z | q | s | l | d]; try (split; reflexivity).
    + destruct (py_all_in_sized get_poll_results_required_fields (VStr s) eq_refl)
        as [[|] Hin]; cbn -[py_all_in]; rewrite Hin; split; reflexivity.
    + destruct (py_all_in_sized get_poll_results_required_fields (VList l) eq_refl)
        as [[|] Hin]; cbn -[py_all_in]; rewrite Hin; split; reflexivity.
    + run_py.
      destruct (has_all_fields get_poll_results_required_fields d) eqn:Hall;
        [| split; reflexivity].
      destruct (dict_has_lookup "options" d) as [opts Hopts];
        [apply (has_all_fields_In _ _ _ Hall); simpl; auto |].
      destruct (dict_has_lookup "question" d) as [qu Hqu];
        [apply (has_all_fields_In _ _ _ Hall); simpl; auto |].
      run_py. rewrite Hopts.
      destruct opts as [| | | | | opts |]; try (split; reflexivity).
      run_py. destruct (forallb option_well_formed opts); [| split; reflexivity].
      run_py. rewrite ?Hqu, ?Hopts. split; reflexivity.
  - cbn -[Z.eqb]. apply Z.eqb_neq in Hne. rewrite Hne.
    destruct (st =? 401); [split; reflexivity |].
    destruct (st =? 404); [split; reflexivity |].
    destruct (st =? 422); split; reflexivity.
Qed.

(** X10: the two argument checks of [get_poll_results].  A [poll_id] that
    is not a positive [int] is turned away first, then a [base_url] that is
    not a non-empty [str]: in both cases the call writes one ERROR record,
    sends nothing and returns [None].  Otherwise the call sends one GET
    request with a timeout of 30 to the stripped base URL followed by
    [/polls/] and [str(poll_id)]; the [bool] [True] passes the check and
    gives [/polls/True]. *)
Theorem get_poll_results_argument_check net b p t :
  (~ valid_poll_id p ->
   get_poll_results net b p t
   = ([Log ERROR [Lit "Invalid poll_id: "; Fmt p; Lit ". Must be a positive integer."]],
      inl VNone))
  /\ (valid_poll_id p -> ~ valid_base_url b ->
      get_poll_results net b p t
      = ([Log ERROR [Lit "Invalid base_url: "; Fmt b;
                     Lit ". Must be a non-empty string."]],
         inl VNone))
  /\ (valid_poll_id p -> valid_base_url b ->
      exists req,
        sent_requests (trace (get_poll_results net b p t)) = [req]
        /\ req_method req = GET
        /\ req_url req = rstrip "/" (str_arg b) ++ "/polls/" ++ str_arg p
        /\ req_timeout req = Some 30).
Proof.
  split; [| split].
  - intros Hp. unfold get_poll_results.
    destruct (negb (isinstance_int p) || int_le_zero p) eqn:H1; [reflexivity |].
    exfalso. apply Hp.
    destruct p as [| [|] | z | | | |]; simpl in *; try discriminate H1; [reflexivity |].
    apply Z.leb_gt in H1. exact H1.
  - intros Hp Hb. unfold get_poll_results.
    destruct (negb (isinstance_int p) || int_le_zero p) eqn:H1.
    + exfalso. destruct p as [| [|] | z | | | |]; simpl in *; try contradiction;
        try discriminate. apply Z.leb_le in H1. lia.
    + destruct (negb (truthy b) || negb (isinstance_str b)) eqn:H2; [reflexivity |].
      exfalso. apply Hb. exact (proj2 (guards_valid b p H1 H2)).
  - intros Hp Hb. destruct (valid_guards b p Hp Hb) as [H1 H2].
    unfold get_poll_results, send. rewrite H1, H2.
    match goal with
    | |- context [net ?r] => exists r
    end.
    split; [| repeat split].
    crunch; reflexivity.
Qed.

Lemma get_poll_results_argument_check_witness :
  valid_poll_id (VBool true) /\ valid_base_url (VStr localhost)
  /\ ~ valid_poll_id (VInt 0)
  /\ (exists req,
        sent_requests (trace (get_poll_results (failing Timeout)
                                (VStr localhost) (VBool true) None)) = [req]
        /\ req_url req = "http://localhost:8000/polls/True")
  /\ result (get_poll_results (failing Timeout) (VStr localhost) (VInt 0) None)
     = inl VNone.
Proof.
  assert (Hp : valid_poll_id (VBool true)) by reflexivity.
  assert (Hb : valid_base_url (VStr localhost)) by (intros H; discriminate H).
  assert (Hz : ~ valid_poll_id (VInt 0)) by (intros H; discriminate H).
  split; [exact Hp |]. split; [exact Hb |]. split; [exact Hz |]. split.
  - destruct (proj2 (proj2 (get_poll_results_argument_check (failing Timeout)
                              (VStr localhost) (VBool true) None)) Hp Hb)
      as (req & Hsent & _ & Hurl & _).
    exists req. split; [exact Hsent | exact Hurl].
  - rewrite (proj1 (get_poll_results_argument_check (failing Timeout)
                      (VStr localhost) (VInt 0) None) Hz).
    reflexivity.
Defined.

(** ** Success bodies of [create_poll] and [fetch_polls] *)

(** X11: when the 200 body of [create_poll] is an object with the five
    required fields, the call returns it if the value of [options] has a
    length (an array, a string or an object); if that value is [null], a
    boolean or a number, the [len] of the log line raises [TypeError]. *)
Theorem create_poll_options_length b q o t r d opts :
  status_code r = 200 -> json r = Some (VDict d) ->
  has_all_fields create_poll_required_fields d = true ->
  dict_lookup "options" d = Some opts ->
  result (create_poll (answering r) b q o t)
  = if is_sized opts then inl (VDict d) else inr TypeError.
Proof.
  destruct r as [st ct tx j]. cbn [status_code json]. intros -> -> Hall Hopts.
  unfold create_poll, send, answering.
  run_py. rewrite Hall. run_py. rewrite Hopts.
  destruct opts; reflexivity.
Qed.

Lemma create_poll_options_length_witness :
  status_code (reply 200 example_poll_null_options_text
                 (Some (VDict example_poll_null_options))) = 200
  /\ has_all_fields create_poll_required_fields example_poll_null_options = true
  /\ dict_lookup "options" example_poll_null_options = Some VNone
  /\ result (create_poll
               (answering (reply 200 example_poll_null_options_text
                             (Some (VDict example_poll_null_options))))
               localhost "Q" ["A"] "token") = inr TypeError.
Proof.
  split; [reflexivity |]. split; [reflexivity |]. split; [reflexivity |].
  exact (create_poll_options_length localhost "Q" ["A"] "token"
           (reply 200 example_poll_null_options_text
              (Some (VDict example_poll_null_options)))
           example_poll_null_options VNone eq_refl eq_refl eq_refl eq_refl).
Defined.

Lemma log_records_app l t1 t2 :
  log_records l (t1 ++ t2) = (log_records l t1 ++ log_records l t2)%list.
Proof.
  induction t1 as [| [r | l' m] t1 IH]; simpl; [reflexivity | exact IH |].
  destruct (level_eqb l' l); simpl; [f_equal |]; exact IH.
Qed.

Lemma fetch_polls_check_warnings polls :
  Forall (fun p => isinstance_dict p = true) polls ->
  log_records WARNING (trace (fetch_polls_check polls))
  = map fetch_polls_warning (incomplete_polls polls)
  /\ log_records ERROR (trace (fetch_polls_check polls)) = [].
Proof.
  induction 1 as [| p polls Hp Hall [IHw IHe]]; [split; reflexivity |].
  destruct p as [| | | | | | d0]; try discriminate Hp.
  pose proof (proj1 (fetch_polls_check_objects polls Hall)) as Hr.
  cbn [fetch_polls_check incomplete_polls]. rewrite py_all_in_dict.
  destruct (fetch_polls_check polls) as [t [[] | e]];
    cbn [result snd] in Hr; [| discriminate Hr].
  cbn [trace fst] in IHw, IHe.
  destruct (has_all_fields fetch_polls_required_fields d0); cbn;
    rewrite ?IHw, ?IHe; split; reflexivity.
Qed.

(** X12: for a 200 body that is an array of objects, the WARNING records
    [fetch_polls] writes are exactly the warnings of the incomplete items,
    one each and in the order of the array, and no ERROR record is written;
    an array of complete objects is returned without any warning. *)
Theorem fetch_polls_warnings b s l r polls :
  status_code r = 200 -> json r = Some (VList polls) ->
  Forall (fun p => isinstance_dict p = true) polls ->
  log_records WARNING (trace (fetch_polls (answering r) b s l))
  = map fetch_polls_warning (incomplete_polls polls)
  /\ log_records ERROR (trace (fetch_polls (answering r) b s l)) = [].
Proof.
  destruct r as [st ct tx j]. simpl. intros -> -> Hall.
  destruct (fetch_polls_check_warnings polls Hall) as [Hw He].
  pose proof (proj1 (fetch_polls_check_objects polls Hall)) as Hr.
  unfold fetch_polls, send, answering. run_py.
  destruct (fetch_polls_check polls) as [t [[] | e]];
    cbn [result snd] in Hr; [| discriminate Hr].
  cbn [trace fst] in Hw, He. cbn.
  rewrite !log_records_app, Hw, He. cbn. rewrite !app_nil_r. split; reflexivity.
Qed.

Lemma fetch_polls_warnings_witness :
  status_code (reply 200 ("[{}," ++ example_poll_text ++ "]")
                 (Some (VList [VDict []; VDict example_poll]))) = 200
  /\ Forall (fun p => isinstance_dict p = true) [VDict []; VDict example_poll]
  /\ log_records WARNING
       (trace (fetch_polls
                 (answering (reply 200 ("[{}," ++ example_poll_text ++ "]")
                 (Some (VList [VDict []; VDict example_poll]))))
                 localhost 0 10))
     = [[Lit "Poll "; Fmt (VStr "Unknown"); Lit " missing required fields"]].
Proof.
  assert (Hall : Forall (fun p => isinstance_dict p = true)
                   [VDict []; VDict example_poll])
    by (repeat constructor).
  split; [reflexivity |]. split; [exact Hall |].
  exact (proj1 (fetch_polls_warnings localhost 0 10
                  (reply 200 ("[{}," ++ example_poll_text ++ "]")
                 (Some (VList [VDict []; VDict example_poll])))
                  [VDict []; VDict example_poll] eq_refl eq_refl Hall)).
Defined.

(** X13: an item of the array that is not an object stops [fetch_polls]:
    when all items before it are objects, an item that is [null], a boolean
    or a number raises [TypeError] at the membership test, and an array or
    string item that does not contain ["id"] raises [AttributeError] at
    [.get]; the items before it have been checked and the array is not
    returned. *)
Theorem fetch_polls_non_object_item b s l r pre x post :
  status_code r = 200 -> json r = Some (VList (pre ++ x :: post)) ->
  Forall (fun p => isinstance_dict p = true) pre ->
  (is_json_scalar x = true ->
   result (fetch_polls (answering r) b s l) = inr TypeError)
  /\ (isinstance_dict x = false -> py_in "id" x = inl false ->
      result (fetch_polls (answering r) b s l) = inr AttributeError).
Proof.
  destruct r as [st ct tx j]. cbn [status_code json]. intros -> -> Hpre.
  assert (Hloop :
            (is_json_scalar x = true ->
             result (fetch_polls_check (pre ++ x :: post)) = inr TypeError)
            /\ (isinstance_dict x = false -> py_in "id" x = inl false ->
                result (fetch_polls_check (pre ++ x :: post)) = inr AttributeError)).
  { induction Hpre as [| p pre Hp _ IH].
    - split.
      + intros Hx. destruct x; try discriminate Hx; reflexivity.
      + intros Hx Hid. cbn [app fetch_polls_check].
        cbn [fetch_polls_required_fields py_all_in]. rewrite Hid.
        destruct x; try discriminate Hx; try discriminate Hid; reflexivity.
    - destruct p as [| | | | | | d]; try discriminate Hp.
      cbn [app fetch_polls_check]. rewrite py_all_in_dict.
      destruct (fetch_polls_check (pre ++ x :: post)) as [tl rl].
      cbn [result snd] in IH. destruct IH as [IH1 IH2].
      split; [intros Hx; specialize (IH1 Hx) | intros Hx Hid; specialize (IH2 Hx Hid)];
        subst rl; destruct (has_all_fields fetch_polls_required_fields d); reflexivity. }
  destruct Hloop as [H1 H2].
  split; [intros Hx; specialize (H1 Hx) | intros Hx Hid; specialize (H2 Hx Hid)];
    unfold fetch_polls, send, answering; run_py;
    destruct (fetch_polls_check (pre ++ x :: post)) as [tl rl];
    cbn [result snd] in *; subst rl; reflexivity.
Qed.

Lemma fetch_polls_non_object_item_witness :
  status_code (reply 200 "[{}, null]" (Some (VList ([VDict []] ++ VNone :: [])))) = 200
  /\ Forall (fun p => isinstance_dict p = true) [VDict []]
  /\ is_json_scalar VNone = true
  /\ result (fetch_polls
               (answering (reply 200 "[{}, null]"
                             (Some (VList ([VDict []] ++ VNone :: [])))))
               localhost 0 10) = inr TypeError.
Proof.
  assert (Hpre : Forall (fun p => isinstance_dict p = true) [VDict []])
    by (repeat constructor).
  split; [reflexivity |]. split; [exact Hpre |]. split; [reflexivity |].
  exact (proj1 (fetch_polls_non_object_item localhost 0 10
                  (reply 200 "[{}, null]" (Some (VList ([VDict []] ++ VNone :: []))))
                  [VDict []] VNone [] eq_refl eq_refl Hpre) eq_refl).
Defined.

(** ** How the raising operations end *)

Lemma fetch_polls_check_result polls :
  result (fetch_polls_check polls) = inl tt
  \/ result (fetch_polls_check polls) = inr AttributeError
  \/ result (fetch_polls_check polls) = inr TypeError.
Proof.
  induction polls as [| poll polls IH]; [left; reflexivity |].
  cbn [fetch_polls_check].
  destruct (fetch_polls_check polls) as [t r]. cbn [result snd] in IH.
  destruct (is_sized poll) eqn:Hs.
  - destruct (py_all_in_sized fetch_polls_required_fields poll Hs) as [[|] Hb];
      rewrite Hb; destruct poll; try discriminate Hs; cbn; auto.
  - destruct poll; try discriminate Hs; cbn; auto.
Qed.

Lemma fetch_polls_check_no_error polls :
  log_records ERROR (trace (fetch_polls_check polls)) = [].
Proof.
  induction polls as [| poll polls IH]; [reflexivity |].
  cbn [fetch_polls_check].
  destruct (fetch_polls_check polls) as [t r]. cbn [trace fst] in IH.
  crunch; cbn; rewrite ?log_records_app, ?IH; reflexivity.
Qed.

Ltac open_reply net :=
  unfold send;
  match goal with
  | |- context [net ?req] =>
      let body := fresh "body" in
      destruct (net req) as [[? ? ? [body |]] | ?]; [destruct body | |]
  end.

Ltac open_loop :=
  match goal with
  | |- context [fetch_polls_check ?l] =>
      let H := fresh "Hloop" in
      pose proof (fetch_polls_check_result l) as H;
      destruct (fetch_polls_check l) as [? ?]; cbn [result snd] in H
  end.

Ltac crunch_loop :=
  unfold raise_for_status, py_get, py_len, py_in in *;
  repeat (cbn -[Z.eqb Z.leb Z.ltb] in *; try open_loop; destruct_scrutinee).

Ltac leaf :=
  intros Hleaf;
  first
    [ discriminate Hleaf
    | solve [injection Hleaf as <-; cbn; auto]
    | injection Hleaf as <-;
      match goal with
      | H : _ \/ _ \/ _ |- _ =>
          destruct H as [X | [X | X]]; inversion X; subst; cbn; auto
      end ].

Lemma register_user_escapes net b u p e :
  result (register_user net b u p) = inr e -> escapes_allowed (RegisterUser b u p) e.
Proof.
  unfold register_user. open_reply net; crunch_loop; leaf.
Qed.

Lemma create_poll_escapes net b q o t e :
  result (create_poll net b q o t) = inr e -> escapes_allowed (CreatePoll b q o t) e.
Proof.
  unfold create_poll. open_reply net; crunch_loop; leaf.
Qed.

Lemma fetch_polls_escapes net b s l e :
  result (fetch_polls net b s l) = inr e -> escapes_allowed (FetchPolls b s l) e.
Proof.
  unfold fetch_polls. open_reply net; crunch_loop; leaf.
Qed.

Lemma vote_on_poll_escapes net b p o t e :
  result (vote_on_poll net b p o t) = inr e -> escapes_allowed (VoteOnPoll b p o t) e.
Proof.
  unfold vote_on_poll. open_reply net; crunch_loop; leaf.
Qed.

(** X14: once the transport has handed back a reply, a raising operation
    ends with no other exception than its own [ValueError], its own
    [RequestException] (with the prefix of the operation, around the
    [HTTPError] or the decode error), [AttributeError], or, for
    [create_poll] and [fetch_polls], [TypeError]: the [HTTPError] and the
    decode error never leave the function unwrapped, and [KeyError] is
    never raised.  A transport error that is a [RequestException] leaves
    the function wrapped in the operation's [RequestException] and in no
    other form. *)
Theorem raising_call_exceptions c :
  raises_on_failure c = true ->
  (forall r e, result (perform (answering r) c) = inr e -> escapes_allowed c e)
  /\ (forall te,
      result (perform (failing te) c)
      = inr (RequestException (wrapper_prefix c) (Transport te))).
Proof.
  intros Hraise. split.
  - intros r e Hres.
    destruct c as [b u p | b q o t | b s l | b p o t | b p t]; cbn [perform] in Hres.
    + exact (register_user_escapes (answering r) b u p e Hres).
    + exact (create_poll_escapes (answering r) b q o t e Hres).
    + exact (fetch_polls_escapes (answering r) b s l e Hres).
    + exact (vote_on_poll_escapes (answering r) b p o t e Hres).
    + discriminate Hraise.
  - intros te. destruct c; try discriminate Hraise; reflexivity.
Qed.

Lemma raising_call_exceptions_witness :
  raises_on_failure (RegisterUser localhost "john_doe" "secure_password123") = true
  /\ result (perform (answering (reply 500 "Internal Server Error" None))
               (RegisterUser localhost "john_doe" "secure_password123"))
     = inr (RequestException "Failed to register user: " (HTTPError 500))
  /\ escapes_allowed (RegisterUser localhost "john_doe" "secure_password123")
       (RequestException "Failed to register user: " (HTTPError 500)).
Proof.
  split; [reflexivity |]. split; [reflexivity |].
  exact (proj1 (raising_call_exceptions
                  (RegisterUser localhost "john_doe" "secure_password123") eq_refl)
           (reply 500 "Internal Server Error" None)
           (RequestException "Failed to register user: " (HTTPError 500)) eq_refl).
Defined.

Ltac open_loop_log :=
  match goal with
  | |- context [fetch_polls_check ?l] =>
      let H := fresh "Hloop" in
      let H' := fresh "Hquiet" in
      pose proof (fetch_polls_check_result l) as H;
      pose proof (fetch_polls_check_no_error l) as H';
      destruct (fetch_polls_check l) as [? ?];
      cbn [result snd] in H; cbn [trace fst] in H'
  end.

Ltac crunch_log :=
  unfold raise_for_status, py_get, py_len, py_in in *;
  repeat (cbn -[Z.eqb Z.leb Z.ltb log_records] in *; try open_loop_log;
          destruct_scrutinee).

Ltac leaf_log :=
  cbn -[log_records];
  try match goal with
      | H : _ \/ _ \/ _ |- _ => destruct H as [X | [X | X]]; inversion X; subst
      end;
  cbn; rewrite ?log_records_app;
  try match goal with
      | H : log_records ERROR _ = [] |- _ => rewrite ?H
      end;
  cbn; split; intros Hx; solve [reflexivity | discriminate Hx | contradiction | exact I].

(** X15: a raising operation leaves no ERROR record in the log exactly when
    it returns a value other than [None] or ends with a runtime error
    ([AttributeError], [TypeError]): every failure it raises itself and
    every fall through the [else] branch is logged at ERROR, a success logs
    no error, and a runtime error passes without one. *)
Theorem raising_call_error_log net c :
  raises_on_failure c = true ->
  log_records ERROR (trace (perform net c)) = []
  <-> match result (perform net c) with
      | inl VNone => False
      | inl _ => True
      | inr e => is_raised_failure e = false
      end.
Proof.
  intros Hraise.
  destruct c as [b u p | b q o t | b s l | b p o t | b p t]; try discriminate Hraise;
    clear Hraise; cbn [perform].
  - unfold register_user. open_reply net; crunch_log; leaf_log.
  - unfold create_poll. open_reply net; crunch_log; leaf_log.
  - unfold fetch_polls. open_reply net; crunch_log; leaf_log.
  - unfold vote_on_poll. open_reply net; crunch_log; leaf_log.
Qed.

Lemma raising_call_error_log_witness :
  raises_on_failure (VoteOnPoll localhost 1 2 "token") = true
  /\ result (perform (answering (reply 200 "null" (Some VNone)))
               (VoteOnPoll localhost 1 2 "token")) = inr AttributeError
  /\ log_records ERROR
       (trace (perform (answering (reply 200 "null" (Some VNone)))
                 (VoteOnPoll localhost 1 2 "token"))) = [].
Proof.
  split; [reflexivity |]. split; [reflexivity |].
  exact (proj2 (raising_call_error_log (answering (reply 200 "null" (Some VNone)))
                  (VoteOnPoll localhost 1 2 "token") eq_refl) eq_refl).
Defined.

(** ** Base URLs without a trailing slash *)

(** X16: [rstrip('/')] leaves a base URL unchanged exactly when it does not
    end in '/', so such a base URL is used as it is, followed by the path
    of the operation; stripping twice is stripping once. *)
Theorem base_url_used_verbatim c b :
  (ends_with_slash b = false <-> rstrip "/" b = b)
  /\ (ends_with_slash b = false ->
      request_url (with_base_url c b) = b ++ request_path c)
  /\ rstrip "/" (rstrip "/" b) = rstrip "/" b.
Proof.
  assert (Hiff : forall s, ends_with_slash s = false -> rstrip "/" s = s).
  { induction s as [| a s IH]; [reflexivity |]. simpl.
    destruct s as [| a' s'].
    - simpl. intros ->. reflexivity.
    - intros H. rewrite (IH H). reflexivity. }
  split; [split; [apply Hiff | intros <-; apply rstrip_no_trailing_slash] |].
  split.
  - intros H. destruct c; simpl;
      unfold register_user_url, create_poll_url, fetch_polls_url, vote_on_poll_url,
             get_poll_results_url; simpl; rewrite (Hiff b H); reflexivity.
  - apply Hiff. apply rstrip_no_trailing_slash.
Qed.

Lemma base_url_used_verbatim_witness :
  ends_with_slash localhost = false
  /\ request_url (with_base_url (VoteOnPoll "" 1 2 "token") localhost)
     = "http://localhost:8000/polls/1/vote".
Proof.
  split; [reflexivity |].
  exact (proj1 (proj2 (base_url_used_verbatim (VoteOnPoll "" 1 2 "token") localhost))
           eq_refl).
Defined.

(** * Properties of the example blocks *)

Lemma stdout_app t1 t2 : stdout (t1 ++ t2) = (stdout t1 ++ stdout t2)%list.
Proof.
  induction t1 as [| [e | line] t1 IH]; simpl; [reflexivity | exact IH | f_equal; exact IH].
Qed.

Lemma stdout_effects t : stdout (map Effect t) = [].
Proof.
  induction t as [| e t IH]; [reflexivity | exact IH].
Qed.

(** X17: the example blocks of [register_user] and [create_poll] catch
    every failure their function raises itself: whatever the transport
    does, the block ends normally after printing exactly one line, unless a
    runtime error of the function ([AttributeError], or [TypeError] for
    [create_poll]) passes through, in which case nothing is printed. *)
Theorem example_blocks_catch_failures net :
  ((io_result (register_user_main net) = inl tt
    /\ List.length (stdout (io_trace (register_user_main net))) = 1%nat)
   \/ (io_result (register_user_main net) = inr AttributeError
       /\ stdout (io_trace (register_user_main net)) = []))
  /\ ((io_result (create_poll_main net) = inl tt
       /\ List.length (stdout (io_trace (create_poll_main net))) = 1%nat)
      \/ ((io_result (create_poll_main net) = inr AttributeError
           \/ io_result (create_poll_main net) = inr TypeError)
          /\ stdout (io_trace (create_poll_main net)) = [])).
Proof.
  split.
  - pose proof (register_user_escapes net "http://localhost:8000" "john_doe"
                  "secure_password123") as Hesc.
    unfold register_user_main, call_function.
    destruct (register_user net "http://localhost:8000" "john_doe" "secure_password123")
      as [t [v | e]].
    + left. cbn. rewrite stdout_app, stdout_effects. split; reflexivity.
    + specialize (Hesc e eq_refl).
      destruct e; cbn in Hesc; try contradiction; cbn;
        rewrite ?stdout_app, ?stdout_effects; auto.
  - pose proof (create_poll_escapes net "http://localhost:8000"
                  "What's your favorite programming language?"
                  ["Python"; "JavaScript"; "Java"; "Go"] "your_jwt_token_here") as Hesc.
    unfold create_poll_main, call_function.
    destruct (create_poll net "http://localhost:8000"
                "What's your favorite programming language?"
                ["Python"; "JavaScript"; "Java"; "Go"] "your_jwt_token_here")
      as [t [v | e]].
    + left. cbn. rewrite stdout_app, stdout_effects. split; reflexivity.
    + specialize (Hesc e eq_refl).
      destruct e; cbn in Hesc; try contradiction; cbn;
        rewrite ?stdout_app, ?stdout_effects; auto.
Qed.

(** X18: a reply with a status below 400 other than 200 (201 Created for
    instance) makes the function return [None], and the example blocks go
    on with it: those of [register_user] and [create_poll] print their
    success line with [None]; that of [vote_on_poll] prints its success
    line with [None] and then raises [TypeError] at [vote['id']]; that of
    [fetch_polls] raises [TypeError] at [len(polls)]. *)
Theorem example_prints_success_for_None r :
  status_code r < 400 -> status_code r <> 200 ->
  (io_result (register_user_main (answering r)) = inl tt
   /\ stdout (io_trace (register_user_main (answering r)))
      = [[Lit "User registered successfully: "; Fmt VNone]])
  /\ (io_result (create_poll_main (answering r)) = inl tt
      /\ stdout (io_trace (create_poll_main (answering r)))
         = [[Lit "Poll created successfully: "; Fmt VNone]])
  /\ (io_result (vote_on_poll_main (answering r)) = inr TypeError
      /\ stdout (io_trace (vote_on_poll_main (answering r)))
         = [[Lit "Vote cast successfully: "; Fmt VNone]])
  /\ (io_result (fetch_polls_main (answering r)) = inr TypeError
      /\ stdout (io_trace (fetch_polls_main (answering r))) = []).
Proof.
  intros Hlt Hne. destruct r as [st ct tx j]. cbn [status_code] in *.
  unfold register_user_main, create_poll_main, vote_on_poll_main, fetch_polls_main,
         call_function, register_user, create_poll, vote_on_poll, fetch_polls,
         send, answering, raise_for_status.
  cbn -[Z.eqb Z.leb Z.ltb].
  not_status st 200. not_status st 400. not_status st 401.
  not_status st 404. not_status st 422.
  replace (400 <=? st) with false by (symmetry; apply Z.leb_gt; lia).
  cbn. repeat split.
Qed.

Lemma example_prints_success_for_None_witness :
  status_code (reply 201 "{}" (Some (VDict []))) < 400
  /\ status_code (reply 201 "{}" (Some (VDict []))) <> 200
  /\ stdout (io_trace (register_user_main (answering (reply 201 "{}" (Some (VDict []))))))
     = [[Lit "User registered successfully: "; Fmt VNone]]
  /\ io_result (vote_on_poll_main (answering (reply 201 "{}" (Some (VDict [])))))
     = inr TypeError.
Proof.
  assert (Hlt : status_code (reply 201 "{}" (Some (VDict []))) < 400) by reflexivity.
  assert (Hne : status_code (reply 201 "{}" (Some (VDict []))) <> 200)
    by (intros H; discriminate H).
  split; [exact Hlt |]. split; [exact Hne |].
  destruct (example_prints_success_for_None (reply 201 "{}" (Some (VDict []))) Hlt Hne)
    as [[_ Hreg] [_ [[Hvote _] _]]].
  split; [exact Hreg | exact Hvote].
Defined.

Lemma get_poll_results_main_loop_ok opts :
  forallb option_well_formed opts = true ->
  io_result (get_poll_results_main_loop opts) = inl tt
  /\ List.length (stdout (io_trace (get_poll_results_main_loop opts))) = List.length opts.
Proof.
  induction opts as [| o opts IH]; [split; reflexivity |].
  cbn [forallb]. intros H. apply andb_prop in H. destruct H as [Ho Hrest].
  destruct (IH Hrest) as [IHr IHs].
  destruct o as [| | | | | | d]; try discriminate Ho.
  cbn [option_well_formed] in Ho. apply andb_prop in Ho. destruct Ho as [_ Htext].
  destruct (dict_has_lookup "text" d Htext) as [txt Htxt].
  cbn [get_poll_results_main_loop].
  destruct (get_poll_results_main_loop opts) as [tl rl].
  cbn [io_result snd io_trace fst] in IHr, IHs. subst rl.
  cbn -[dict_lookup]. rewrite Htxt. cbn. rewrite IHs. split; reflexivity.
Qed.

(** X19: the example block of [get_poll_results] adds no failure of its
    own.  If the function raises, the block ends with that exception; if
    the function returns [None], the block prints "Failed to retrieve poll
    results"; and if it returns a poll, the checks the function has made
    let every access of the block succeed: it prints four lines and one
    line per option. *)
Theorem get_poll_results_main_safe net :
  (forall e,
      result (get_poll_results net (VStr "http://localhost:8000") (VInt 1) None) = inr e ->
      io_result (get_poll_results_main net) = inr e)
  /\ (result (get_poll_results net (VStr "http://localhost:8000") (VInt 1) None)
      = inl VNone ->
      io_result (get_poll_results_main net) = inl tt
      /\ stdout (io_trace (get_poll_results_main net))
         = [[Lit "Failed to retrieve poll results"]])
  /\ (forall v,
      result (get_poll_results net (VStr "http://localhost:8000") (VInt 1) None) = inl v ->
      v <> VNone ->
      io_result (get_poll_results_main net) = inl tt
      /\ exists d opts,
           v = VDict d /\ dict_lookup "options" d = Some (VList opts)
           /\ List.length (stdout (io_trace (get_poll_results_main net)))
              = (4 + List.length opts)%nat).
Proof.
  pose proof (get_poll_results_cases net (VStr "http://localhost:8000") (VInt 1) None)
    as Hc.
  unfold get_poll_results_main, call_function.
  destruct (get_poll_results net (VStr "http://localhost:8000") (VInt 1) None)
    as [tr res].
  cbn [result snd trace fst] in *.
  destruct Hc as [-> | [(d & opts & req & r & -> & Hall & Hopts & Hwf & _)
                       | (req & r & v' & -> & _)]].
  - split; [intros e H; discriminate H |].
    split; [| intros v H Hv; injection H as <-; contradiction].
    intros _. cbn. rewrite stdout_app, stdout_effects. split; reflexivity.
  - split; [intros e H; discriminate H |].
    split; [intros H; discriminate H |].
    intros v H _. injection H as <-.
    assert (Ht : truthy (VDict d) = true)
      by (destruct d; [discriminate Hopts | reflexivity]).
    destruct (dict_has_lookup "question" d) as [qu Hqu];
      [apply (has_all_fields_In _ _ _ Hall); simpl; auto |].
    destruct (dict_has_lookup "created_at" d) as [cr Hcr];
      [apply (has_all_fields_In _ _ _ Hall); simpl; auto |].
    destruct (get_poll_results_main_loop_ok opts Hwf) as [Hlr Hls].
    cbn -[truthy dict_lookup get_poll_results_main_loop].
    rewrite Ht. cbn -[dict_lookup get_poll_results_main_loop].
    rewrite Hqu. cbn -[dict_lookup get_poll_results_main_loop].
    rewrite Hcr. cbn -[dict_lookup get_poll_results_main_loop].
    rewrite Hopts. cbn -[dict_lookup get_poll_results_main_loop].
    destruct (get_poll_results_main_loop opts) as [tl rl].
    cbn [io_result snd io_trace fst] in Hlr, Hls. subst rl.
    split; [reflexivity |]. exists d, opts.
    split; [reflexivity |]. split; [exact Hopts |].
    cbn. rewrite !stdout_app, stdout_effects. cbn. rewrite Hls. reflexivity.
  - split; [intros e H; injection H as <-; reflexivity |].
    split; [intros H; discriminate H | intros v H; discriminate H].
Qed.

Lemma get_poll_results_main_safe_witness :
  result (get_poll_results (failing Timeout) (VStr "http://localhost:8000") (VInt 1) None)
  = inl VNone
  /\ io_result (get_poll_results_main (failing Timeout)) = inl tt
  /\ stdout (io_trace (get_poll_results_main (failing Timeout)))
     = [[Lit "Failed to retrieve poll results"]].
Proof.
  split; [reflexivity |].
  exact (proj1 (proj2 (get_poll_results_main_safe (failing Timeout))) eq_refl).
Defined.

(** X20: the example block of [fetch_polls] catches [RequestException]
    only, so a [ValueError] of the function (status 422, or a 200 body that
    is not an array) ends the block with that exception, before anything is
    printed. *)
Theorem fetch_polls_main_lets_ValueError_escape net msg :
  result (fetch_polls net "http://localhost:8000" 0 10) = inr (ValueError msg) ->
  io_result (fetch_polls_main net) = inr (ValueError msg)
  /\ stdout (io_trace (fetch_polls_main net)) = [].
Proof.
  intros H. unfold fetch_polls_main, call_function.
  destruct (fetch_polls net "http://localhost:8000" 0 10) as [t res].
  cbn [result snd] in H. subst res. cbn.
  rewrite stdout_effects. split; reflexivity.
Qed.

Lemma fetch_polls_main_lets_ValueError_escape_witness :
  result (fetch_polls (answering (reply 422 "" None)) "http://localhost:8000" 0 10)
  = inr (ValueError [Lit "Invalid pagination parameters: "; Fmt (VStr "Validation error")])
  /\ io_result (fetch_polls_main (answering (reply 422 "" None)))
     = inr (ValueError [Lit "Invalid pagination parameters: ";
                        Fmt (VStr "Validation error")]).
Proof.
  split; [reflexivity |].
  exact (proj1 (fetch_polls_main_lets_ValueError_escape (answering (reply 422 "" None))
                  [Lit "Invalid pagination parameters: "; Fmt (VStr "Validation error")]
                  eq_refl)).
Defined.

(** X21: the functions are lenient about a missing [id] and their example
    blocks are not.  With a 200 reply whose object has no [id],
    [vote_on_poll] returns the object and its block prints the success line
    and then raises [KeyError('id')]; with an array of objects whose first
    item has no [id], [fetch_polls] returns the array and its block prints
    the count and then raises [KeyError('id')].  No [except] clause of the
    blocks catches it. *)
Theorem examples_fail_on_missing_field r d :
  status_code r = 200 ->
  (json r = Some (VDict d) -> dict_lookup "id" d = None ->
   io_result (vote_on_poll_main (answering r)) = inr (KeyError "id")
   /\ stdout (io_trace (vote_on_poll_main (answering r)))
      = [[Lit "Vote cast successfully: "; Fmt (VDict d)]])
  /\ (forall rest,
      json r = Some (VList (VDict d :: rest)) ->
      Forall (fun p => isinstance_dict p = true) rest ->
      dict_lookup "id" d = None ->
      io_result (fetch_polls_main (answering r)) = inr (KeyError "id")
      /\ stdout (io_trace (fetch_polls_main (answering r)))
         = [[Lit "Fetched "; Fmt (VInt (Z.of_nat (S (List.length rest))));
             Lit " polls:"]]).
Proof.
  destruct r as [st ct tx j]. cbn [status_code json]. intros ->. split.
  - intros -> Hid.
    assert (Hhas : dict_has "id" d = false).
    { destruct (dict_has "id" d) eqn:E; [| reflexivity].
      destruct (dict_has_lookup "id" d E) as [v Hv]. rewrite Hv in Hid. discriminate. }
    unfold vote_on_poll_main, call_function, vote_on_poll, send, answering.
    run_py. unfold has_all_fields. cbn [forallb vote_on_poll_required_fields].
    rewrite Hhas. cbn -[dict_lookup missing_fields]. rewrite Hid.
    cbn -[missing_fields]. split; reflexivity.
  - intros rest -> Hrest Hid.
    assert (Hall : Forall (fun p => isinstance_dict p = true) (VDict d :: rest))
      by (constructor; [reflexivity | exact Hrest]).
    pose proof (proj1 (fetch_polls_check_objects _ Hall)) as Hloop.
    unfold fetch_polls_main, call_function, fetch_polls, send, answering.
    cbn -[fetch_polls_check dict_lookup].
    destruct (fetch_polls_check (VDict d :: rest)) as [tl [[] | e]];
      cbn [result snd] in Hloop; [| discriminate Hloop].
    cbn -[dict_lookup]. rewrite Hid. cbn.
    rewrite ?stdout_app, ?app_nil_r, ?stdout_effects. split; reflexivity.
Qed.

Lemma examples_fail_on_missing_field_witness :
  status_code (reply 200 "{}" (Some (VDict []))) = 200
  /\ dict_lookup "id" [] = None
  /\ io_result (vote_on_poll_main (answering (reply 200 "{}" (Some (VDict [])))))
     = inr (KeyError "id")
  /\ io_result (fetch_polls_main (answering (reply 200 "[{}]" (Some (VList [VDict []])))))
     = inr (KeyError "id").
Proof.
  split; [reflexivity |]. split; [reflexivity |]. split.
  - exact (proj1 (proj1 (examples_fail_on_missing_field
                           (reply 200 "{}" (Some (VDict []))) [] eq_refl)
                    eq_refl eq_refl)).
  - exact (proj1 (proj2 (examples_fail_on_missing_field
                           (reply 200 "[{}]" (Some (VList [VDict []]))) [] eq_refl)
                    [] eq_refl (Forall_nil _) eq_refl)).
Defined.
